(** * Presence and signalling relay of src/backend/app.py

    Shallow embedding of the Socket.IO part of the backend: the presence
    table [room_users], the transport room membership kept by
    python-socketio, the per-connection session store, and the handlers
    [on_join], [on_leave], [disconnect], [on_signal] and [_presence_remove].
    Each handler is a function from the state to the new state and the list
    of emissions it performs, in order. *)

From Stdlib Require Import String Ascii List Bool Arith ZArith Lia Sorted Permutation.
Import ListNotations.
Local Open Scope string_scope.
Local Open Scope list_scope.

(** ** Payload values (the JSON values carried by Socket.IO events) *)

#[local] Set Warnings "-register-all".
Inductive value : Type :=
| VNull
| VBool (b : bool)
| VNum (z : Z)
| VStr (s : string)
| VList (l : list value)
| VObj (kvs : list (string * value)).

(** Python truthiness of a payload value. *)
Definition truthy (v : value) : bool :=
  match v with
  | VNull => false
  | VBool b => b
  | VNum z => negb (Z.eqb z 0)
  | VStr s => negb (String.eqb s "")
  | VList l => match l with [] => false | _ => true end
  | VObj kvs => match kvs with [] => false | _ => true end
  end.

(** ** Python dicts as association lists

    [dget] is [d.get(k)], [dset] is [d[k] = v] (an existing key keeps its
    position, a new key goes last) and [dpop] is [d.pop(k, None)]. Keys are
    unique in every dict the program builds, so removing every binding of
    [k] is the same as removing the one binding. *)

Fixpoint dget {A} (k : string) (d : list (string * A)) : option A :=
  match d with
  | [] => None
  | (k', v) :: d' => if String.eqb k k' then Some v else dget k d'
  end.

Fixpoint dset {A} (k : string) (v : A) (d : list (string * A)) : list (string * A) :=
  match d with
  | [] => [(k, v)]
  | (k', v') :: d' => if String.eqb k k' then (k', v) :: d' else (k', v') :: dset k v d'
  end.

Fixpoint dpop {A} (k : string) (d : list (string * A)) : list (string * A) :=
  match d with
  | [] => []
  | (k', v') :: d' => if String.eqb k k' then dpop k d' else (k', v') :: dpop k d'
  end.

Definition has_key {A} (k : string) (d : list (string * A)) : bool :=
  match dget k d with Some _ => true | None => false end.

Definition dget_or {A} (k : string) (d : list (string * list A)) : list A :=
  match dget k d with Some v => v | None => [] end.

(** ** Python string helpers *)

(** [str.isspace] on code points below 256. *)
Definition is_space (c : ascii) : bool :=
  let n := nat_of_ascii c in
  (  ((9 <=? n) && (n <=? 13)) || ((28 <=? n) && (n <=? 32)) || (n =? 133) || (n =? 160))%nat.

Fixpoint drop_space (l : list ascii) : list ascii :=
  match l with
  | [] => []
  | c :: l' => if is_space c then drop_space l' else l
  end.

(** [s.strip()] *)
Definition strip (s : string) : string :=
  string_of_list_ascii (rev (drop_space (rev (drop_space (list_ascii_of_string s))))).

(** [x or dflt] for a field [x] that is a string or absent ([None]). *)
Definition or_str (x : option string) (dflt : string) : string :=
  match x with
  | Some s => if String.eqb s "" then dflt else s
  | None => dflt
  end.

(** Python's [sorted] on a list of strings (code point order). *)
Fixpoint insert_sorted (x : string) (l : list string) : list string :=
  match l with
  | [] => [x]
  | y :: l' => if String.leb x y then x :: l else y :: insert_sorted x l'
  end.

Fixpoint sorted (l : list string) : list string :=
  match l with
  | [] => []
  | x :: l' => insert_sorted x (sorted l')
  end.

(** ** Data model *)

(** [room_users[room][user_id]] : [{"name": str, "devices": set}];
    the set is a list without duplicates. *)
Record entry : Type := mkEntry { e_name : string; e_devices : list string }.

(** [sio.save_session(sid, {"room", "userId", "deviceId", "name"})] *)
Record session : Type := mkSession
  { s_room : string; s_userId : string; s_deviceId : string; s_name : string }.

Record state : Type := mkState
  { room_users : list (string * list (string * entry))   (* presence table *)
  ; rooms : list (string * list string)                (* transport membership *)
  ; sessions : list (string * session)                 (* session store *)
  }.

Definition init : state := mkState [] [] [].

(** One [sio.emit]: event name, payload and the connections it reaches. *)
Record emission : Type := mkEmission
  { em_event : string; em_payload : value; em_to : list string }.

(** The payload of a [join] event: [data.get(...)] of each field. *)
Record join_data : Type := mkJoin
  { jd_room : option string; jd_userId : option string;
    jd_deviceId : option string; jd_name : option string }.

(** ** Transport primitives (python-socketio) *)

Definition members (st : state) (room : string) : list string := dget_or room (rooms st).

Definition set_add (x : string) (l : list string) : list string :=
  if existsb (String.eqb x) l then l else l ++ [x].

(** [sio.enter_room(sid, room)] *)
Definition enter_room (sid room : string) (st : state) : state :=
  mkState (room_users st) (dset room (set_add sid (members st room)) (rooms st)) (sessions st).

(** [sio.save_session(sid, sess)] *)
Definition save_session (sid : string) (ss : session) (st : state) : state :=
  mkState (room_users st) (rooms st) (dset sid ss (sessions st)).

(** [sio.get_session(sid)]: [None] when the connection saved no session. *)
Definition get_session (sid : string) (st : state) : option session := dget sid (sessions st).

Definition skip (sid : string) (l : list string) : list string :=
  filter (fun x => negb (String.eqb x sid)) l.

(** [sio.emit(ev, payload, room=room, skip_sid=sid)] *)
Definition emit_room (st : state) (ev : string) (p : value) (room sid : string) : emission :=
  mkEmission ev p (skip sid (members st room)).

(** What python-socketio does after the [disconnect] handler returns: the
    connection leaves every room and its session is dropped. *)
Definition transport_disconnect (sid : string) (st : state) : state :=
  mkState (room_users st)
          (map (fun rl => (fst rl, skip sid (snd rl))) (rooms st))
          (dpop sid (sessions st)).

(** ** Handlers *)

Definition presence_row (st : state) (room : string) : list (string * entry) :=
  dget_or room (room_users st).

(** [emit_roster(room)] *)
Definition roster_user (ue : string * entry) : value :=
  let (uid, info) := ue in
  VObj [("userId", VStr uid);
        ("name", VStr (if String.eqb (e_name info) "" then uid else e_name info));
        ("devices", VList (map VStr (sorted (e_devices info))))].

Definition emit_roster (st : state) (room : string) : emission :=
  mkEmission "roster"
    (VObj [("room", VStr room); ("users", VList (map roster_user (presence_row st room)))])
    (members st room).

Definition join_room (j : join_data) : string :=
  let r := strip (or_str (jd_room j) "default") in
  if String.eqb r "" then "default" else r.

Definition join_user (j : join_data) : string := strip (or_str (jd_userId j) "").
Definition join_device (j : join_data) : string := strip (or_str (jd_deviceId j) "").
Definition join_name (j : join_data) : string :=
  strip (or_str (jd_name j) (or_str (Some (join_user j)) "Guest")).

Definition room_full_notice : value :=
  VObj [("level", VStr "error"); ("message", VStr "room_full")].

Definition user_joined_payload (room user name device : string) (another : bool) : value :=
  VObj [("room", VStr room); ("userId", VStr user); ("name", VStr name);
        ("deviceId", VStr device); ("anotherDevice", VBool another)].

(** The table update of the second critical section of [on_join]. *)
Definition join_table (room user device name : string) (st : state) : state * bool :=
  let row := presence_row st room in
  let already := has_key user row in
  let e0 := match dget user row with Some e => e | None => mkEntry name [] end in
  let pre := e_devices e0 in
  let e1 := mkEntry (e_name e0) (set_add device pre) in
  (mkState (dset room (dset user e1 row) (room_users st)) (rooms st) (sessions st),
   already && negb (existsb (String.eqb device) pre)).

(** The capacity guard of [on_join]:
    [len(room_users.get(room, {})) >= 2 and user_id not in room_users[room]]. *)
Definition capacity_rejects (st : state) (room user : string) : bool :=
  let row := presence_row st room in
  (2 <=? length row)%nat && negb (has_key user row).

(** [on_join(sid, data)] *)
Definition on_join (st : state) (sid : string) (j : join_data) : state * list emission :=
  let room := join_room j in
  let user := join_user j in
  let device := join_device j in
  let name := join_name j in
  if String.eqb user "" || String.eqb device "" then
    let st1 := enter_room sid room st in
    (st1, [emit_room st1 "system" (VObj [("message", VStr "joined")]) room sid])
  else
    if capacity_rejects st room user then
      (st, [mkEmission "system" room_full_notice [sid]])
    else
      let st1 := enter_room sid room st in
      let st2 := save_session sid (mkSession room user device name) st1 in
      let (st3, another) := join_table room user device name st2 in
      (st3, [emit_room st3 "user_joined" (user_joined_payload room user name device another) room sid;
             emit_roster st3 room]).

Definition user_left_payload (room user name device : string) (last : bool) (reason : string) : value :=
  VObj [("room", VStr room); ("userId", VStr user); ("name", VStr name);
        ("deviceId", VStr device); ("lastDevice", VBool last); ("reason", VStr reason)].

(** The critical section of [_presence_remove]: the new table and
    [last_device]. *)
Definition remove_table (room user device : string)
    (tbl : list (string * list (string * entry))) : list (string * list (string * entry)) * bool :=
  match dget room tbl with
  | None => (tbl, false)
  | Some row =>
      match dget user row with
      | None => (tbl, false)
      | Some ue =>
          match remove string_dec device (e_devices ue) with
          | [] =>
              let row' := dpop user row in
              match row' with
              | [] => (dpop room tbl, true)
              | _ => (dset room row' tbl, true)
              end
          | ds => (dset room (dset user (mkEntry (e_name ue) ds) row) tbl, false)
          end
      end
  end.

(** [session.get("name") or user_id] *)
Definition session_name (ss : session) : string :=
  if String.eqb (s_name ss) "" then s_userId ss else s_name ss.

(** [_presence_remove(sid, reason)] *)
Definition presence_remove (st : state) (sid reason : string) : state * list emission :=
  match get_session sid st with
  | None => (st, [])
  | Some ss =>
      let room := s_room ss in
      let user := s_userId ss in
      let device := s_deviceId ss in
      let name := session_name ss in
      let (tbl, last) := remove_table room user device (room_users st) in
      let st1 := mkState tbl (rooms st) (sessions st) in
      if String.eqb room "" then (st1, [])
      else (st1, [emit_room st1 "user_left" (user_left_payload room user name device last reason) room sid;
                  emit_roster st1 room])
  end.

(** [on_leave(sid, data)] *)
Definition on_leave (st : state) (sid : string) : state * list emission :=
  presence_remove st sid "leave".

(** [disconnect(sid)], followed by the transport's own cleanup. *)
Definition disconnect (st : state) (sid : string) : state * list emission :=
  let (st1, out) := presence_remove st sid "disconnect" in
  (transport_disconnect sid st1, out).

(** [(data or {}).get("room") or "default"], the [room] argument handed to
    [sio.emit]; [None] when [.get] raises ([data] is a truthy non-dict). *)
Definition signal_room (data : value) : option value :=
  let field :=
    match data with
    | VObj kvs => Some (match dget "room" kvs with Some v => v | None => VNull end)
    | _ => if truthy data then None else Some VNull   (* non-dict: [.get] raises *)
    end in
  match field with
  | None => None
  | Some v => Some (if truthy v then v else VStr "default")
  end.

(** [participants.update(...)]: the connections of [m] not yet in [acc]
    are appended in order. *)
Definition add_members (acc m : list string) : list string :=
  fold_left (fun a x => set_add x a) m acc.

(** One room key of python-socketio's [get_participants]: a string names a
    room; a number or a boolean is a key no room has; a list or a dict is
    unhashable and raises ([None]). [None] also stands for the key [null],
    the room of every connection, which the state does not record. *)
Definition room_key_members (st : state) (r : value) : option (list string) :=
  match r with
  | VStr s => Some (members st s)
  | VNum _ | VBool _ => Some []
  | VNull | VList _ | VObj _ => None
  end.

(** [get_participants(namespace, room)]: a list names several rooms, whose
    connections are merged; a dict raises on [room[0]]. [None]: raises, or
    names the room of every connection (see [room_key_members]). *)
Definition room_participants (st : state) (room : value) : option (list string) :=
  match room with
  | VList [] => None
  | VList (r0 :: rs) =>
      fold_left (fun acc r =>
                   match acc, room_key_members st r with
                   | Some a, Some m => Some (add_members a m)
                   | _, _ => None
                   end) rs (room_key_members st r0)
  | VObj _ => None
  | _ => room_key_members st room
  end.

(** [on_signal(sid, data)]; [None] when the handler raises. *)
Definition on_signal (st : state) (sid : string) (data : value) : option (list emission) :=
  match signal_room data with
  | None => None
  | Some room =>
      match room_participants st room with
      | None => None
      | Some ps => Some [mkEmission "signal" data (skip sid ps)]
      end
  end.

(** ** Event traces *)

Inductive event : Type :=
| EJoin (sid : string) (j : join_data)
| ELeave (sid : string)
| EDisconnect (sid : string)
| ESignal (sid : string) (data : value).

Definition step (st : state) (ev : event) : state * list emission :=
  match ev with
  | EJoin sid j => on_join st sid j
  | ELeave sid => on_leave st sid
  | EDisconnect sid => disconnect st sid
  | ESignal sid data =>
      (st, match on_signal st sid data with Some out => out | None => [] end)
  end.

Fixpoint run (st : state) (evs : list event) : state :=
  match evs with
  | [] => st
  | ev :: evs' => run (fst (step st ev)) evs'
  end.

Definition full (room user device name : string) : join_data :=
  mkJoin (Some room) (Some user) (Some device) (Some name).

(** ** Concurrent joins

    Handlers run as asyncio tasks, and the event loop may switch to another
    task at an [await] that suspends. [on_join] is cut at those points into
    segments. The first segment runs from the handler's entry through the
    first [presence_lock] section (the capacity check, lines 141-145), then
    [enter_room] and [save_session] (147-148, neither of which suspends
    before its write). The second segment starts at
    [async with presence_lock] on line 150: it performs the table update
    (150-157) and the [user_joined] notice, whose recipients are read when
    [sio.emit] starts (159-164). The third segment is [emit_roster] (165):
    it acquires the lock again, takes the snapshot and emits. *)
Inductive join_pc : Type :=
| JStart
| JSaved
| JAnnounced.

Record join_task : Type := mkTask { t_sid : string; t_join : join_data; t_pc : option join_pc }.

(** The run of a join task up to its next await; [t_pc = None] is a task
    that has returned. *)
Definition join_segment (st : state) (t : join_task) : state * list emission * join_task :=
  let sid := t_sid t in
  let j := t_join t in
  let room := join_room j in
  let user := join_user j in
  let device := join_device j in
  let name := join_name j in
  let at_pc pc := mkTask sid j pc in
  match t_pc t with
  | Some JStart =>
      if String.eqb user "" || String.eqb device "" then
        let st1 := enter_room sid room st in
        (st1, [emit_room st1 "system" (VObj [("message", VStr "joined")]) room sid], at_pc None)
      else if capacity_rejects st room user then
        (st, [mkEmission "system" room_full_notice [sid]], at_pc None)
      else
        let st1 := enter_room sid room st in
        (save_session sid (mkSession room user device name) st1, [], at_pc (Some JSaved))
  | Some JSaved =>
      let (st3, another) := join_table room user device name st in
      (st3, [emit_room st3 "user_joined" (user_joined_payload room user name device another) room sid],
       at_pc (Some JAnnounced))
  | Some JAnnounced => (st, [emit_roster st room], at_pc None)
  | None => (st, [], t)
  end.

Fixpoint replace_nth {A} (n : nat) (x : A) (l : list A) : list A :=
  match n, l with
  | O, _ :: l' => x :: l'
  | S n', y :: l' => y :: replace_nth n' x l'
  | _, [] => []
  end.

(** The event loop resumes task [i]; an index with no task does nothing. *)
Definition sched_step (c : state * list emission * list join_task) (i : nat)
    : state * list emission * list join_task :=
  let '(st, out, ts) := c in
  match nth_error ts i with
  | None => c
  | Some t => let '(st', o, t') := join_segment st t in (st', out ++ o, replace_nth i t' ts)
  end.

(** The join tasks [ts] run from [st] in the order the schedule gives. *)
Definition sched_run (st : state) (ts : list join_task) (sched : list nat)
    : state * list emission * list join_task :=
  fold_left sched_step sched (st, [], ts).

(** ** The [/translate] endpoint

    [translate_prepare] is [translate()] up to the outgoing request: it
    answers with an error response, or gives the call it makes (text, target
    languages, optional source language); [None] is an exception escaping
    the handler. [translate_reply] is the response built from the JSON
    payload of a successful call. *)

(** [request.get_json(silent=True) or {}]; [None] is a body that is not
    JSON. *)
Definition request_data (body : option value) : value :=
  match body with
  | Some v => if truthy v then v else VObj []
  | None => VObj []
  end.

(** [(data.get(k) or "").strip()]; [None] when it raises ([data] is not a
    dict, or the field is a truthy non-string). *)
Definition str_field (data : value) (k : string) : option string :=
  match data with
  | VObj kvs =>
      match dget k kvs with
      | None => Some ""
      | Some v =>
          if truthy v then match v with VStr s => Some (strip s) | _ => None end
          else Some ""
      end
  | _ => None
  end.

(** [s.split(",")] *)
Fixpoint split_at_comma (l : list ascii) : list (list ascii) :=
  match l with
  | [] => [[]]
  | c :: l' =>
      let rest := split_at_comma l' in
      if Ascii.eqb c "," then [] :: rest
      else match rest with
           | r :: rs => (c :: r) :: rs
           | [] => [[c]]
           end
  end.

Definition split_comma (s : string) : list string :=
  map string_of_list_ascii (split_at_comma (list_ascii_of_string s)).

(** [[t.strip() for t in to_param.split(",") if t.strip()]] *)
Definition to_list (to_param : string) : list string :=
  filter (fun t => negb (String.eqb t "")) (map strip (split_comma to_param)).

Record translate_call : Type := mkCall
  { tc_text : string; tc_to : list string; tc_from : option string }.

Inductive http_reply : Type :=
| Reply (status : Z) (body : value)
| Call (c : translate_call).

(** The query parameters of the outgoing request. *)
Definition translate_params (c : translate_call) : list (string * value) :=
  [("api-version", VStr "3.0"); ("to", VList (map VStr (tc_to c)))] ++
  match tc_from c with Some f => [("from", VStr f)] | None => [] end.

Definition translate_prepare (body : option value) (to_arg : option string) : option http_reply :=
  let data := request_data body in
  match str_field data "text" with
  | None => None
  | Some text =>
      match str_field data "from" with
      | None => None
      | Some f =>
          let from_lang := if String.eqb f "" then None else Some f in
          let to_param := strip (or_str to_arg "") in
          if String.eqb text "" || String.eqb to_param "" then
            Some (Reply 400 (VObj [("error", VStr "missing_text_or_to")]))
          else
            match to_list to_param with
            | [] => Some (Reply 400 (VObj [("error", VStr "invalid_to")]))
            | tl => Some (Call (mkCall text tl from_lang))
            end
      end
  end.

(** [translated] computed from the payload; [None] when it raises. *)
Definition extract_translated (payload : value) : option value :=
  match payload with
  | VList (p0 :: _) =>
      match (if truthy p0 then p0 else VObj []) with
      | VObj kvs =>
          let tr := match dget "translations" kvs with
                    | Some v => if truthy v then v else VList []
                    | None => VList []
                    end in
          if truthy tr then
            match tr with
            | VList (VObj tk :: _) => Some (match dget "text" tk with Some v => v | None => VNull end)
            | _ => None
            end
          else Some VNull
      | _ => None
      end
  | _ => Some VNull
  end.

Definition translate_reply (payload : value) : option http_reply :=
  match extract_translated payload with
  | Some t => Some (Reply 200 (VObj [("translated", t); ("raw", payload)]))
  | None => None
  end.

(** [TRANSLATOR_ENDPOINT.rstrip('/')] *)
Fixpoint drop_slash (l : list ascii) : list ascii :=
  match l with
  | c :: l' => if Ascii.eqb c "/" then drop_slash l' else l
  | [] => []
  end.

Definition rstrip_slash (s : string) : string :=
  string_of_list_ascii (rev (drop_slash (rev (list_ascii_of_string s)))).

(** [os.getenv("TRANSLATOR_ENDPOINT") or os.getenv("billing", "")] over the
    environment [env]. *)
Definition translator_endpoint (env : list (string * string)) : string :=
  or_str (dget "TRANSLATOR_ENDPOINT" env) (match dget "billing" env with Some b => b | None => "" end).

(** [API_BASE]; [None] when loading the module raises [RuntimeError]
    ([if not TRANSLATOR_ENDPOINT]). *)
Definition api_base (endpoint : string) : option string :=
  if String.eqb endpoint "" then None
  else Some ((rstrip_slash endpoint ++ "/translator/text/v3.0")%string).

(** The devices of the entry [room_users[room][user]], empty when absent. *)
Definition devices_of (st : state) (room user : string) : list string :=
  match dget user (presence_row st room) with Some e => e_devices e | None => [] end.

Example strip_ex : strip "  ab c " = "ab c".
Proof. reflexivity. Qed.

Example join_ex :
  let st := run init [EJoin "s1" (full "R" "A" "D1" "Ann"); EJoin "s2" (full "R" "A" "D2" "Ann")] in
  presence_row st "R" = [("A", mkEntry "Ann" ["D1"; "D2"])] /\ members st "R" = ["s1"; "s2"].
Proof. split; reflexivity. Qed.

(** ** Dictionary lemmas *)

Ltac str_cases :=
  repeat match goal with
  | H : String.eqb _ _ = true |- _ => apply String.eqb_eq in H; subst
  | H : String.eqb _ _ = false |- _ => apply String.eqb_neq in H
  end.

Lemma dget_dset_eq {A} (k : string) (v : A) d : dget k (dset k v d) = Some v.
Proof.
  induction d as [|[k' v'] d IH]; simpl.
  - now rewrite String.eqb_refl.
  - destruct (String.eqb k k') eqn:E; simpl; rewrite E; auto.
Qed.

Lemma dget_dset_neq {A} (k k2 : string) (v : A) d :
  k2 <> k -> dget k2 (dset k v d) = dget k2 d.
Proof.
  intros Hne. induction d as [|[k' v'] d IH]; simpl.
  - apply String.eqb_neq in Hne. now rewrite Hne.
  - destruct (String.eqb k k') eqn:E; simpl.
    + str_cases. apply String.eqb_neq in Hne. now rewrite Hne.
    + destruct (String.eqb k2 k'); auto.
Qed.

Lemma dget_dpop_eq {A} (k : string) (d : list (string * A)) : dget k (dpop k d) = None.
Proof.
  induction d as [|[k' v'] d IH]; simpl; auto.
  destruct (String.eqb k k') eqn:E; simpl; auto. now rewrite E.
Qed.

Lemma dget_dpop_neq {A} (k k2 : string) (d : list (string * A)) :
  k2 <> k -> dget k2 (dpop k d) = dget k2 d.
Proof.
  intros Hne. induction d as [|[k' v'] d IH]; simpl; auto.
  destruct (String.eqb k k') eqn:E; simpl.
  - str_cases. apply String.eqb_neq in Hne. now rewrite Hne.
  - destruct (String.eqb k2 k'); auto.
Qed.

Lemma dget_dset {A} (k k2 : string) (v : A) d :
  dget k2 (dset k v d) = if String.eqb k2 k then Some v else dget k2 d.
Proof.
  destruct (String.eqb k2 k) eqn:E; str_cases.
  - apply dget_dset_eq.
  - now apply dget_dset_neq.
Qed.

Lemma dget_dpop {A} (k k2 : string) (d : list (string * A)) :
  dget k2 (dpop k d) = if String.eqb k2 k then None else dget k2 d.
Proof.
  destruct (String.eqb k2 k) eqn:E; str_cases.
  - apply dget_dpop_eq.
  - now apply dget_dpop_neq.
Qed.

Lemma existsb_eqb_In (x : string) l : existsb (String.eqb x) l = true <-> In x l.
Proof.
  rewrite existsb_exists. split.
  - intros [y [Hy E]]. apply String.eqb_eq in E. now subst.
  - intros H. exists x. split; auto. apply String.eqb_refl.
Qed.

Lemma In_set_add (x y : string) l : In x (set_add y l) <-> x = y \/ In x l.
Proof.
  unfold set_add. destruct (existsb (String.eqb y) l) eqn:E.
  - apply existsb_eqb_In in E. split; [tauto|]. intros [->|H]; auto.
  - rewrite in_app_iff. simpl. intuition.
Qed.

Lemma has_key_dget {A} (k : string) (d : list (string * A)) :
  has_key k d = true <-> exists v, dget k d = Some v.
Proof.
  unfold has_key. destruct (dget k d); split; intros H; try discriminate; eauto.
  destruct H as [v Hv]; discriminate.
Qed.

Lemma dget_or_Some {A} (k : string) (d : list (string * list A)) row :
  dget k d = Some row -> dget_or k d = row.
Proof. unfold dget_or. now intros ->. Qed.

(** ** Shape of an accepted full-mode join *)

Lemma presence_row_save_enter (st : state) sid ss sid' r room :
  presence_row (save_session sid ss (enter_room sid' r st)) room = presence_row st room.
Proof. reflexivity. Qed.

Lemma strip_default : strip "default" = "default".
Proof. reflexivity. Qed.

Lemma on_join_accepted (st : state) (sid : string) (j : join_data) :
  join_user j <> "" -> join_device j <> "" ->
  capacity_rejects st (join_room j) (join_user j) = false ->
  let room := join_room j in
  let user := join_user j in
  let device := join_device j in
  let name := join_name j in
  on_join st sid j =
    (let st2 := save_session sid (mkSession room user device name) (enter_room sid room st) in
     let (st3, another) := join_table room user device name st2 in
     (st3, [emit_room st3 "user_joined" (user_joined_payload room user name device another) room sid;
            emit_roster st3 room])).
Proof.
  intros Hu Hd Hcap. unfold on_join.
  apply String.eqb_neq in Hu, Hd. cbv zeta. rewrite Hu, Hd. cbn [orb]. now rewrite Hcap.
Qed.


Lemma join_room_blank (r u d n : option string) :
  strip (or_str r "") = "" -> join_room (mkJoin r u d n) = "default".
Proof.
  intros H. unfold join_room. cbn [jd_room].
  destruct r as [s|]; [|reflexivity].
  unfold or_str in *. destruct (String.eqb s "") eqn:E.
  - reflexivity.
  - rewrite H. reflexivity.
Qed.

(** ** C1: capacity guard *)

(** C1: a full-mode join into a room whose presence row already holds two
    or more distinct userIds is rejected when the joining userId is not one
    of them: the only effect is the [room_full] notice sent to the joining
    connection, the state (presence table, room membership, sessions) is
    unchanged. When the joining userId is one of them, the join goes
    through: the connection enters the room, its session is saved and its
    device is in the user's entry. *)
Theorem on_join_capacity_guard (st : state) (sid : string) (j : join_data) :
  join_user j <> "" -> join_device j <> "" ->
  (2 <= length (presence_row st (join_room j)))%nat ->
  (has_key (join_user j) (presence_row st (join_room j)) = false ->
     on_join st sid j = (st, [mkEmission "system" room_full_notice [sid]])) /\
  (has_key (join_user j) (presence_row st (join_room j)) = true ->
     let st' := fst (on_join st sid j) in
     In sid (members st' (join_room j)) /\
     get_session sid st' = Some (mkSession (join_room j) (join_user j) (join_device j) (join_name j)) /\
     In (join_device j) (devices_of st' (join_room j) (join_user j))).
Proof.
  intros Hu Hd H2. split; intros Hk.
  - unfold on_join. cbv zeta.
    rewrite (proj2 (String.eqb_neq _ _) Hu), (proj2 (String.eqb_neq _ _) Hd). cbn [orb].
    unfold capacity_rejects. rewrite Hk, (proj2 (Nat.leb_le _ _) H2). reflexivity.
  - rewrite on_join_accepted; auto.
    2: { unfold capacity_rejects. rewrite Hk. now rewrite andb_false_r. }
    unfold join_table, devices_of, members, presence_row, get_session, dget_or. cbn.
    rewrite !dget_dset_eq. cbn. repeat split.
    + apply In_set_add. now left.
    + apply In_set_add. now left.
Qed.

Lemma on_join_capacity_guard_witness :
  let st := run init [EJoin "s1" (full "R" "A" "D1" "Ann"); EJoin "s2" (full "R" "B" "E1" "Bob")] in
  on_join st "s3" (full "R" "C" "F1" "Cat") = (st, [mkEmission "system" room_full_notice ["s3"]]) /\
  In (join_device (full "R" "A" "D2" "Ann"))
     (devices_of (fst (on_join st "s3" (full "R" "A" "D2" "Ann"))) "R" "A").
Proof.
  intros st. split.
  - apply (proj1 (on_join_capacity_guard st "s3" (full "R" "C" "F1" "Cat")
                    ltac:(discriminate) ltac:(discriminate) ltac:(vm_compute; lia))).
    reflexivity.
  - apply (proj2 (on_join_capacity_guard st "s3" (full "R" "A" "D2" "Ann")
                    ltac:(discriminate) ltac:(discriminate) ltac:(vm_compute; lia))).
    reflexivity.
Defined.

(** ** C7: the anotherDevice flag *)

(** C7: on an accepted full-mode join the first emission is [user_joined]
    whose [anotherDevice] is [already and device_id not in pre], both read
    from the table before the join mutates it. *)
Theorem on_join_another_device (st : state) (sid : string) (j : join_data) :
  join_user j <> "" -> join_device j <> "" ->
  capacity_rejects st (join_room j) (join_user j) = false ->
  let already := has_key (join_user j) (presence_row st (join_room j)) in
  let pre := devices_of st (join_room j) (join_user j) in
  exists recips, hd_error (snd (on_join st sid j)) =
    Some (mkEmission "user_joined"
            (user_joined_payload (join_room j) (join_user j) (join_name j) (join_device j)
               (already && negb (existsb (String.eqb (join_device j)) pre)))
            recips).
Proof.
  intros Hu Hd Hcap. rewrite on_join_accepted; auto.
  unfold join_table, devices_of. rewrite !presence_row_save_enter. cbn.
  destruct (dget (join_user j) (presence_row st (join_room j))); eexists; reflexivity.
Qed.

Lemma on_join_another_device_witness :
  let st := run init [EJoin "s1" (full "R" "A" "D1" "Ann")] in
  exists recips, hd_error (snd (on_join st "s2" (full "R" "A" "D2" "Ann"))) =
    Some (mkEmission "user_joined"
            (user_joined_payload "R" "A" "Ann" "D2"
               (has_key "A" (presence_row st "R") && negb (existsb (String.eqb "D2") (devices_of st "R" "A"))))
            recips).
Proof.
  intros st.
  exact (on_join_another_device st "s2" (full "R" "A" "D2" "Ann")
           ltac:(discriminate) ltac:(discriminate) ltac:(reflexivity)).
Defined.

Example another_device_first :
  hd_error (snd (on_join init "s1" (full "R" "A" "D1" "Ann"))) =
  Some (mkEmission "user_joined" (user_joined_payload "R" "A" "Ann" "D1" false) []).
Proof. reflexivity. Qed.

Example another_device_second :
  let st := run init [EJoin "s1" (full "R" "A" "D1" "Ann")] in
  hd_error (snd (on_join st "s2" (full "R" "A" "D2" "Ann"))) =
  Some (mkEmission "user_joined" (user_joined_payload "R" "A" "Ann" "D2" true) ["s1"]).
Proof. reflexivity. Qed.

Example another_device_same :
  let st := run init [EJoin "s1" (full "R" "A" "D1" "Ann")] in
  hd_error (snd (on_join st "s2" (full "R" "A" "D1" "Ann"))) =
  Some (mkEmission "user_joined" (user_joined_payload "R" "A" "Ann" "D1" false) ["s1"]).
Proof. reflexivity. Qed.

(** ** C5: the display name of an entry *)

(** C5 (counterexample): a second device of user A joining with the name
    "Annie" leaves the entry, and the roster, with the name "Ann" of the
    first join. *)
Lemma on_join_name_not_updated :
  let st := run init [EJoin "s1" (full "R" "A" "D1" "Ann"); EJoin "s2" (full "R" "A" "D2" "Annie")] in
  (forall e, dget "A" (presence_row st "R") = Some e -> e_name e <> "Annie") /\
  em_payload (emit_roster st "R") =
    VObj [("room", VStr "R");
          ("users", VList [VObj [("userId", VStr "A"); ("name", VStr "Ann");
                                 ("devices", VList [VStr "D1"; VStr "D2"])]])].
Proof.
  split.
  - intros e He. vm_compute in He. injection He as <-. discriminate.
  - reflexivity.
Qed.

Lemma dget_In {A} (k : string) (v : A) (d : list (string * A)) : dget k d = Some v -> In (k, v) d.
Proof.
  induction d as [|[k' v'] d IH]; cbn; [discriminate|].
  destruct (String.eqb k k') eqn:E.
  - apply String.eqb_eq in E. subst k'. intros H. injection H as <-. now left.
  - intros H. right. now apply IH.
Qed.

(** C5 (amended): after an accepted full-mode join the (room, userId) entry
    holds the name it already had, or the supplied name when the join
    created it, and the device set gains the joining deviceId; the roster
    the join emits lists the user under that entry's name (the userId when
    it is empty), while the [user_joined] notice carries the supplied name. *)
Theorem on_join_entry_name (st : state) (sid : string) (j : join_data) :
  join_user j <> "" -> join_device j <> "" ->
  capacity_rejects st (join_room j) (join_user j) = false ->
  let room := join_room j in
  let user := join_user j in
  let n0 := match dget user (presence_row st room) with
            | Some e => e_name e
            | None => join_name j
            end in
  let ds := set_add (join_device j) (devices_of st room user) in
  let '(st', out) := on_join st sid j in
  dget user (presence_row st' room) = Some (mkEntry n0 ds) /\
  In (VObj [("userId", VStr user); ("name", VStr (if String.eqb n0 "" then user else n0));
            ("devices", VList (map VStr (sorted ds)))])
     (map roster_user (presence_row st' room)) /\
  exists another,
    out = [emit_room st' "user_joined" (user_joined_payload room user (join_name j) (join_device j) another) room sid;
           emit_roster st' room].
Proof.
  intros Hu Hd Hcap room user n0 ds. rewrite on_join_accepted; auto. cbv zeta.
  assert (He : dget (join_user j)
                 (presence_row (fst (join_table (join_room j) (join_user j) (join_device j) (join_name j)
                    (save_session sid (mkSession (join_room j) (join_user j) (join_device j) (join_name j))
                       (enter_room sid (join_room j) st)))) (join_room j)) = Some (mkEntry n0 ds)).
  { unfold n0, ds, room, user. unfold join_table, devices_of, presence_row, dget_or. cbn.
    rewrite !dget_dset_eq.
    destruct (dget (join_user j) (match dget (join_room j) (room_users st) with Some v => v | None => [] end));
      reflexivity. }
  destruct (join_table (join_room j) (join_user j) (join_device j) (join_name j)
              (save_session sid (mkSession (join_room j) (join_user j) (join_device j) (join_name j))
                 (enter_room sid (join_room j) st))) as [st3 another] eqn:Ejt.
  cbn [fst] in He. cbv beta iota. split; [exact He|]. split.
  - change (VObj [("userId", VStr user); ("name", VStr (if String.eqb n0 "" then user else n0));
                  ("devices", VList (map VStr (sorted ds)))]) with (roster_user (user, mkEntry n0 ds)).
    apply in_map. now apply dget_In.
  - exists another. reflexivity.
Qed.

Lemma on_join_entry_name_witness :
  let st := run init [EJoin "s1" (full "R" "A" "D1" "Ann"); EJoin "s3" (full "R" "B" "E1" "Bob")] in
  let n0 := match dget "A" (presence_row st "R") with Some e => e_name e | None => "Annie" end in
  let ds := set_add "D2" (devices_of st "R" "A") in
  let '(st', out) := on_join st "s2" (full "R" "A" "D2" "Annie") in
  dget "A" (presence_row st' "R") = Some (mkEntry n0 ds) /\
  In (VObj [("userId", VStr "A"); ("name", VStr (if String.eqb n0 "" then "A" else n0));
            ("devices", VList (map VStr (sorted ds)))])
     (map roster_user (presence_row st' "R")) /\
  exists another,
    out = [emit_room st' "user_joined" (user_joined_payload "R" "A" "Annie" "D2" another) "R" "s2";
           emit_roster st' "R"].
Proof.
  intros st.
  exact (on_join_entry_name st "s2" (full "R" "A" "D2" "Annie")
           ltac:(discriminate) ltac:(discriminate) ltac:(reflexivity)).
Defined.

(** ** C8: a missing or blank room *)

(** C8 (counterexample): a full-mode join without a room field is not
    rejected; it changes the state: the user is present in room "default". *)
Lemma on_join_missing_room_accepted :
  let st := fst (on_join init "s1" (mkJoin None (Some "A") (Some "D") None)) in
  st <> init /\ devices_of st "default" "A" = ["D"] /\
  get_session "s1" st = Some (mkSession "default" "A" "D" "A").
Proof.
  repeat split.
  - intros H. vm_compute in H. discriminate.
Qed.

(** C8 (amended): a join whose room field is missing, empty or blank is
    handled exactly as a join naming room "default". *)
Theorem on_join_blank_room (st : state) (sid : string) (r u d n : option string) :
  strip (or_str r "") = "" ->
  on_join st sid (mkJoin r u d n) = on_join st sid (mkJoin (Some "default") u d n).
Proof.
  intros H. unfold on_join. rewrite (join_room_blank r u d n H). reflexivity.
Qed.

Lemma on_join_blank_room_witness :
  on_join init "s1" (mkJoin (Some "   ") (Some "A") (Some "D") None) =
  on_join init "s1" (mkJoin (Some "default") (Some "A") (Some "D") None).
Proof. exact (on_join_blank_room init "s1" (Some "   ") (Some "A") (Some "D") None eq_refl). Defined.

(** ** C10: signal relay *)

(** C10: a [signal] whose payload names room [r] leaves the state unchanged
    and emits the payload itself, unchanged, under the event name [signal]
    to every member of [r] except the sender. *)
Theorem on_signal_relay (st : state) (sid r : string) (kvs : list (string * value)) :
  dget "room" kvs = Some (VStr r) -> r <> "" ->
  step st (ESignal sid (VObj kvs)) =
    (st, [mkEmission "signal" (VObj kvs) (skip sid (members st r))]).
Proof.
  intros Hr Hne. unfold step, on_signal, signal_room. rewrite Hr. cbn [truthy].
  rewrite (proj2 (String.eqb_neq _ _) Hne). reflexivity.
Qed.

Lemma on_signal_relay_witness :
  let st := run init [EJoin "s1" (full "R" "A" "D1" "Ann"); EJoin "s2" (full "R" "B" "E1" "Bob")] in
  let p := [("room", VStr "R"); ("sdp", VStr "v=0"); ("extra", VList [VNum 1%Z; VNull])] in
  step st (ESignal "s1" (VObj p)) = (st, [mkEmission "signal" (VObj p) (skip "s1" (members st "R"))]).
Proof. intros st p. exact (on_signal_relay st "s1" "R" p eq_refl ltac:(discriminate)). Defined.

Example signal_relay_ex :
  let st := run init [EJoin "s1" (full "R" "A" "D1" "Ann"); EJoin "s2" (full "R" "B" "E1" "Bob")] in
  snd (step st (ESignal "s1" (VObj [("room", VStr "R"); ("x", VBool true)]))) =
  [mkEmission "signal" (VObj [("room", VStr "R"); ("x", VBool true)]) ["s2"]].
Proof. reflexivity. Qed.

(** ** The critical section of [_presence_remove] *)

Lemma dget_or_dget_Some {A} (k k2 : string) (d : list (string * list (string * A))) v :
  dget k2 (dget_or k d) = Some v -> exists row, dget k d = Some row /\ dget k2 row = Some v.
Proof.
  unfold dget_or. destruct (dget k d) as [row|]; [eauto | discriminate].
Qed.

Lemma remove_table_self (room user device : string) tbl :
  dget user (dget_or room (fst (remove_table room user device tbl))) =
    match dget user (dget_or room tbl) with
    | None => None
    | Some e => match remove string_dec device (e_devices e) with
                | [] => None
                | ds => Some (mkEntry (e_name e) ds)
                end
    end /\
  snd (remove_table room user device tbl) =
    match dget user (dget_or room tbl) with
    | None => false
    | Some e => match remove string_dec device (e_devices e) with [] => true | _ => false end
    end.
Proof.
  unfold remove_table, dget_or.
  destruct (dget room tbl) as [row|] eqn:Er; [| cbn [fst snd]; rewrite Er; auto].
  destruct (dget user row) as [ue|] eqn:Eu; [| cbn [fst snd]; rewrite Er; auto].
  destruct (remove string_dec device (e_devices ue)) as [|x ds] eqn:Eds.
  - destruct (dpop user row) as [|p row'] eqn:Ep; cbn [fst snd].
    + rewrite dget_dpop_eq. auto.
    + rewrite dget_dset_eq, <- Ep, dget_dpop_eq. auto.
  - cbn [fst snd]. rewrite !dget_dset_eq. auto.
Qed.

Lemma remove_table_frame (room user device : string) tbl r u :
  r <> room \/ u <> user ->
  dget u (dget_or r (fst (remove_table room user device tbl))) = dget u (dget_or r tbl).
Proof.
  intros Hne. unfold remove_table.
  destruct (dget room tbl) as [row|] eqn:Er; [|auto].
  destruct (dget user row) as [ue|] eqn:Eu; [|auto].
  unfold dget_or.
  destruct (String.eqb r room) eqn:Erm; str_cases.
  - assert (Hu : u <> user) by (destruct Hne; congruence).
    destruct (remove string_dec device (e_devices ue)) as [|x ds] eqn:Eds.
    + destruct (dpop user row) as [|p row'] eqn:Ep; cbn [fst].
      * rewrite dget_dpop_eq, Er. rewrite <- (dget_dpop_neq user u row Hu), Ep. reflexivity.
      * rewrite dget_dset_eq, Er, <- Ep. now rewrite dget_dpop_neq.
    + cbn [fst]. rewrite dget_dset_eq, Er. now rewrite dget_dset_neq.
  - destruct (remove string_dec device (e_devices ue)) as [|x ds];
      [destruct (dpop user row)|]; cbn [fst];
      rewrite ?dget_dpop_neq, ?dget_dset_neq; auto.
Qed.

Lemma remove_table_row_gone (room user device : string) tbl e :
  dget user (dget_or room tbl) = Some e ->
  remove string_dec device (e_devices e) = [] ->
  (dget room (fst (remove_table room user device tbl)) = None <-> dpop user (dget_or room tbl) = []).
Proof.
  intros He Hds. apply dget_or_dget_Some in He as [row [Er Eu]].
  unfold remove_table. rewrite Er, Eu, Hds. rewrite (dget_or_Some _ _ _ Er).
  destruct (dpop user row) as [|p row'] eqn:Ep; cbn [fst].
  - rewrite dget_dpop_eq. tauto.
  - rewrite dget_dset_eq. split; discriminate.
Qed.

Lemma presence_remove_some (st : state) (sid reason : string) (ss : session) :
  get_session sid st = Some ss -> s_room ss <> "" ->
  let room := s_room ss in
  let user := s_userId ss in
  let device := s_deviceId ss in
  let '(tbl, last) := remove_table room user device (room_users st) in
  let st1 := mkState tbl (rooms st) (sessions st) in
  presence_remove st sid reason =
    (st1, [emit_room st1 "user_left" (user_left_payload room user (session_name ss) device last reason) room sid;
           emit_roster st1 room]).
Proof.
  intros Hs Hr. unfold presence_remove. rewrite Hs. cbv zeta.
  destruct (remove_table (s_room ss) (s_userId ss) (s_deviceId ss) (room_users st)).
  now rewrite (proj2 (String.eqb_neq _ _) Hr).
Qed.

(** ** C2: lastDevice *)

(** C2: removing the connection of a session (room, userId, deviceId) whose
    entry exists takes deviceId out of the entry's device set. The first
    emission is [user_left] with [lastDevice] true exactly when the set
    became empty; then the entry is gone, and the room's row is gone exactly
    when no other user was left in it. Otherwise the entry stays with the
    remaining devices. Every other entry is unchanged. *)
Theorem presence_remove_last_device (st st' : state) (out : list emission)
    (sid reason : string) (ss : session) (e : entry) :
  get_session sid st = Some ss -> s_room ss <> "" ->
  dget (s_userId ss) (presence_row st (s_room ss)) = Some e ->
  presence_remove st sid reason = (st', out) ->
  let room := s_room ss in
  let user := s_userId ss in
  let device := s_deviceId ss in
  let ds := remove string_dec device (e_devices e) in
  let last := match ds with [] => true | _ => false end in
  (exists recips, hd_error out =
     Some (mkEmission "user_left" (user_left_payload room user (session_name ss) device last reason) recips)) /\
  (last = true ->
     dget user (presence_row st' room) = None /\
     (dget room (room_users st') = None <-> dpop user (presence_row st room) = [])) /\
  (last = false -> dget user (presence_row st' room) = Some (mkEntry (e_name e) ds)) /\
  (forall r u, r <> room \/ u <> user -> dget u (presence_row st' r) = dget u (presence_row st r)).
Proof.
  intros Hs Hr He Hrm. cbv zeta.
  pose proof (presence_remove_some st sid reason ss Hs Hr) as Hp. cbv zeta in Hp.
  pose proof (remove_table_self (s_room ss) (s_userId ss) (s_deviceId ss) (room_users st)) as [Hself Hlast].
  pose proof (remove_table_frame (s_room ss) (s_userId ss) (s_deviceId ss) (room_users st)) as Hframe.
  pose proof (remove_table_row_gone (s_room ss) (s_userId ss) (s_deviceId ss) (room_users st) e He) as Hgone.
  unfold presence_row in *. rewrite He in Hself, Hlast.
  destruct (remove_table (s_room ss) (s_userId ss) (s_deviceId ss) (room_users st)) as [tbl last] eqn:Et.
  cbn [fst snd] in *. rewrite Hrm in Hp. injection Hp as -> ->. cbn [room_users].
  split; [|split; [|split]].
  - eexists. cbn. subst last. reflexivity.
  - intros Hl. destruct (remove string_dec (s_deviceId ss) (e_devices e)); [|discriminate].
    split; [exact Hself | apply Hgone; reflexivity].
  - intros Hl. destruct (remove string_dec (s_deviceId ss) (e_devices e)); [discriminate | exact Hself].
  - intros r u Hne. now apply Hframe.
Qed.

Lemma presence_remove_last_device_witness :
  let st := run init [EJoin "s1" (full "R" "A" "D1" "Ann"); EJoin "s2" (full "R" "A" "D2" "Ann")] in
  dget "A" (presence_row (fst (presence_remove st "s1" "disconnect")) "R") = Some (mkEntry "Ann" ["D2"]).
Proof.
  intros st.
  exact (proj1 (proj2 (proj2
    (presence_remove_last_device st (fst (presence_remove st "s1" "disconnect"))
       (snd (presence_remove st "s1" "disconnect")) "s1" "disconnect"
       (mkSession "R" "A" "D1" "Ann") (mkEntry "Ann" ["D1"; "D2"])
       eq_refl ltac:(discriminate) eq_refl eq_refl))) eq_refl).
Defined.

Example last_device_scenario :
  let st := run init [EJoin "s1" (full "R" "A" "D1" "Ann"); EJoin "s2" (full "R" "A" "D2" "Ann")] in
  let '(st1, out1) := disconnect st "s1" in
  let '(st2, out2) := disconnect st1 "s2" in
  hd_error out1 = Some (mkEmission "user_left" (user_left_payload "R" "A" "Ann" "D1" false "disconnect") ["s2"]) /\
  presence_row st1 "R" = [("A", mkEntry "Ann" ["D2"])] /\
  hd_error out2 = Some (mkEmission "user_left" (user_left_payload "R" "A" "Ann" "D2" true "disconnect") []) /\
  room_users st2 = [].
Proof. repeat split. Qed.

(** ** C4: a repeated removal *)

(** C4 (failing input): after A leaves room R, a second [leave] from the
    same connection finds the session that the first one kept and emits
    [user_left] to B again. *)
Theorem on_leave_twice_rebroadcasts :
  let st := run init [EJoin "s1" (full "R" "A" "D1" "Ann"); EJoin "s2" (full "R" "B" "E1" "Bob")] in
  let st1 := fst (on_leave st "s1") in
  get_session "s1" st1 = Some (mkSession "R" "A" "D1" "Ann") /\
  hd_error (snd (on_leave st "s1")) =
    Some (mkEmission "user_left" (user_left_payload "R" "A" "Ann" "D1" true "leave") ["s2"]) /\
  hd_error (snd (on_leave st1 "s1")) =
    Some (mkEmission "user_left" (user_left_payload "R" "A" "Ann" "D1" false "leave") ["s2"]).
Proof. repeat split. Qed.

Example disconnect_twice_silent :
  let st := run init [EJoin "s1" (full "R" "A" "D1" "Ann"); EJoin "s2" (full "R" "B" "E1" "Bob")] in
  let st1 := fst (disconnect st "s1") in
  disconnect st1 "s1" = (st1, []).
Proof. reflexivity. Qed.

(** ** C6: leave against disconnect *)

(** C6 (failing input): from the same state, a [leave] of s1 keeps s1 in
    the room membership of R and keeps its session, while a [disconnect] of
    s1 drops both. *)
Theorem leave_disconnect_diverge :
  let st := run init [EJoin "s1" (full "R" "A" "D1" "Ann"); EJoin "s2" (full "R" "B" "E1" "Bob")] in
  members (fst (on_leave st "s1")) "R" = ["s1"; "s2"] /\
  members (fst (disconnect st "s1")) "R" = ["s2"] /\
  get_session "s1" (fst (on_leave st "s1")) = Some (mkSession "R" "A" "D1" "Ann") /\
  get_session "s1" (fst (disconnect st "s1")) = None /\
  fst (on_leave st "s1") <> fst (disconnect st "s1").
Proof.
  repeat split. intros H. vm_compute in H. discriminate.
Qed.

(** ** C3: presence consistency *)

(** The property of the claim: an entry exists for (room, userId) exactly
    when a live session references that pair, and no entry has an empty
    device set. *)
Definition presence_consistent (st : state) : Prop :=
  (forall room user,
     (exists e, dget user (presence_row st room) = Some e) <->
     (exists sid ss, get_session sid st = Some ss /\ s_room ss = room /\ s_userId ss = user)) /\
  (forall room user e, dget user (presence_row st room) = Some e -> e_devices e <> []).

Definition entries_nonempty (st : state) : Prop :=
  forall room user e, dget user (presence_row st room) = Some e -> e_devices e <> [].

(** The device set of each (room, userId) is the set of deviceIds of the
    live sessions on that pair. *)
Definition sessions_match (st : state) : Prop :=
  forall room user device,
    In device (devices_of st room user) <->
    exists sid ss, get_session sid st = Some ss /\
      s_room ss = room /\ s_userId ss = user /\ s_deviceId ss = device.

(** No two live sessions share a (room, userId, deviceId). *)
Definition sessions_unique (st : state) : Prop :=
  forall sid1 sid2 ss1 ss2,
    get_session sid1 st = Some ss1 -> get_session sid2 st = Some ss2 ->
    s_room ss1 = s_room ss2 -> s_userId ss1 = s_userId ss2 -> s_deviceId ss1 = s_deviceId ss2 ->
    sid1 = sid2.

Definition full_join (j : join_data) : bool :=
  negb (String.eqb (join_user j) "") && negb (String.eqb (join_device j) "").

Definition same_triple (ss : session) (room user device : string) : bool :=
  String.eqb (s_room ss) room && String.eqb (s_userId ss) user && String.eqb (s_deviceId ss) device.

(** The traces the consistency property holds on: no [leave]; a full-mode
    join comes from a connection without a session and uses a
    (room, userId, deviceId) that no live session holds. *)
Definition event_ok (st : state) (ev : event) : bool :=
  match ev with
  | EJoin sid j =>
      negb (full_join j) ||
      (negb (has_key sid (sessions st)) &&
       forallb (fun p => negb (same_triple (snd p) (join_room j) (join_user j) (join_device j)))
               (sessions st))
  | ELeave _ => false
  | EDisconnect _ => true
  | ESignal _ _ => true
  end.

Fixpoint trace_ok (st : state) (evs : list event) : bool :=
  match evs with
  | [] => true
  | ev :: evs' => event_ok st ev && trace_ok (fst (step st ev)) evs'
  end.

(** C3 (counterexample): two connections of user A with the same deviceId
    D; after s1 disconnects the entry of A is gone although s2 is live. *)
Lemma shared_device_breaks_consistency :
  ~ presence_consistent
      (run init [EJoin "s1" (full "R" "A" "D" "Ann"); EJoin "s2" (full "R" "A" "D" "Ann");
                 EDisconnect "s1"]).
Proof.
  intros [H _]. destruct (proj2 (H "R" "A")) as [e He].
  - exists "s2", (mkSession "R" "A" "D" "Ann"). repeat split.
  - vm_compute in He. discriminate.
Qed.

(** *** Effects of the handlers on the presence table and the sessions *)


Lemma join_table_state (room user device name : string) st :
  rooms (fst (join_table room user device name st)) = rooms st /\
  sessions (fst (join_table room user device name st)) = sessions st.
Proof. split; reflexivity. Qed.

Lemma join_table_get (room user device name : string) st r u :
  dget u (presence_row (fst (join_table room user device name st)) r) =
    if String.eqb r room && String.eqb u user
    then Some (mkEntry (match dget user (presence_row st room) with Some e => e_name e | None => name end)
                       (set_add device (devices_of st room user)))
    else dget u (presence_row st r).
Proof.
  unfold join_table, devices_of, presence_row, dget_or. cbn [fst room_users].
  rewrite dget_dset. destruct (String.eqb r room) eqn:Er; str_cases; cbn [andb].
  - rewrite dget_dset. destruct (String.eqb u user) eqn:Eu; str_cases.
    + destruct (dget user (match dget room (room_users st) with Some v => v | None => [] end)); reflexivity.
    + reflexivity.
  - reflexivity.
Qed.

Lemma join_table_devices (room user device name : string) st r u :
  devices_of (fst (join_table room user device name st)) r u =
    if String.eqb r room && String.eqb u user then set_add device (devices_of st room user)
    else devices_of st r u.
Proof.
  unfold devices_of at 1. rewrite join_table_get.
  destruct (String.eqb r room && String.eqb u user); reflexivity.
Qed.

Lemma get_session_save (sid sid' : string) ss st :
  get_session sid' (save_session sid ss st) = if String.eqb sid' sid then Some ss else get_session sid' st.
Proof. apply dget_dset. Qed.

Lemma get_session_transport (sid sid' : string) st :
  get_session sid' (transport_disconnect sid st) = if String.eqb sid' sid then None else get_session sid' st.
Proof. apply dget_dpop. Qed.

Lemma presence_remove_state (st : state) (sid reason : string) :
  fst (presence_remove st sid reason) =
    match get_session sid st with
    | None => st
    | Some ss => mkState (fst (remove_table (s_room ss) (s_userId ss) (s_deviceId ss) (room_users st)))
                         (rooms st) (sessions st)
    end.
Proof.
  unfold presence_remove. destruct (get_session sid st) as [ss|]; [|reflexivity]. cbv zeta.
  destruct (remove_table (s_room ss) (s_userId ss) (s_deviceId ss) (room_users st)).
  destruct (String.eqb (s_room ss) ""); reflexivity.
Qed.

Lemma remove_table_devices (room user device : string) st X Y r u :
  devices_of (mkState (fst (remove_table room user device (room_users st))) X Y) r u =
    if String.eqb r room && String.eqb u user then remove string_dec device (devices_of st room user)
    else devices_of st r u.
Proof.
  unfold devices_of, presence_row. cbn [room_users].
  destruct (String.eqb r room && String.eqb u user) eqn:E.
  - apply andb_true_iff in E as [Er Eu]. str_cases.
    destruct (remove_table_self room user device (room_users st)) as [Hs _]. rewrite Hs.
    destruct (dget user (dget_or room (room_users st))) as [e|]; [|reflexivity].
    destruct (remove string_dec device (e_devices e)); reflexivity.
  - rewrite remove_table_frame; [reflexivity|].
    apply andb_false_iff in E as [E|E]; str_cases; auto.
Qed.

Lemma In_remove_iff (x y : string) l : In x (remove string_dec y l) <-> In x l /\ x <> y.
Proof.
  split; [apply in_remove|]. intros [H1 H2]. now apply in_in_remove.
Qed.

Lemma set_add_nonempty (x : string) l : set_add x l <> [].
Proof.
  intros H. assert (Hin : In x (set_add x l)) by (apply In_set_add; now left).
  rewrite H in Hin. contradiction.
Qed.

(** *** The presence table keeps no empty device set *)

Lemma remove_table_nonempty (st : state) (room user device : string) X Y :
  entries_nonempty st ->
  entries_nonempty (mkState (fst (remove_table room user device (room_users st))) X Y).
Proof.
  intros H r u e He. unfold presence_row in He. cbn [room_users] in He.
  destruct (String.eqb r room && String.eqb u user) eqn:E.
  - apply andb_true_iff in E as [Er Eu]. str_cases.
    rewrite (proj1 (remove_table_self room user device (room_users st))) in He.
    destruct (dget user (dget_or room (room_users st))); [|discriminate].
    destruct (remove string_dec device (e_devices e0)); [discriminate|].
    injection He as <-. cbn. discriminate.
  - rewrite remove_table_frame in He; [exact (H r u e He)|].
    apply andb_false_iff in E as [E|E]; str_cases; auto.
Qed.

Lemma presence_remove_nonempty (st : state) (sid reason : string) :
  entries_nonempty st -> entries_nonempty (fst (presence_remove st sid reason)).
Proof.
  intros H. rewrite presence_remove_state.
  destruct (get_session sid st); [now apply remove_table_nonempty | exact H].
Qed.

Lemma entries_nonempty_step (st : state) (ev : event) :
  entries_nonempty st -> entries_nonempty (fst (step st ev)).
Proof.
  intros H. destruct ev as [sid j|sid|sid|sid data]; cbn [step].
  - unfold on_join. cbv zeta.
    destruct (String.eqb (join_user j) "" || String.eqb (join_device j) ""); [exact H|].
    destruct (capacity_rejects st (join_room j) (join_user j)); [exact H|].
    destruct (join_table (join_room j) (join_user j) (join_device j) (join_name j)
                (save_session sid (mkSession (join_room j) (join_user j) (join_device j) (join_name j))
                   (enter_room sid (join_room j) st))) as [st3 another] eqn:Ejt.
    cbn [fst]. intros r u e He.
    assert (Hst3 : st3 = fst (join_table (join_room j) (join_user j) (join_device j) (join_name j)
                (save_session sid (mkSession (join_room j) (join_user j) (join_device j) (join_name j))
                   (enter_room sid (join_room j) st)))) by now rewrite Ejt.
    rewrite Hst3, join_table_get in He.
    destruct (String.eqb r (join_room j) && String.eqb u (join_user j)).
    + injection He as <-. apply set_add_nonempty.
    + exact (H r u e He).
  - now apply presence_remove_nonempty.
  - unfold disconnect.
    pose proof (presence_remove_nonempty st sid "disconnect" H) as H1.
    destruct (presence_remove st sid "disconnect") as [st1 out]. exact H1.
  - exact H.
Qed.

Lemma entries_nonempty_run (st : state) (evs : list event) :
  entries_nonempty st -> entries_nonempty (run st evs).
Proof.
  revert st. induction evs as [|ev evs IH]; intros st H; [exact H|].
  apply IH. now apply entries_nonempty_step.
Qed.

(** *** Sessions and device sets agree on guarded traces *)

Definition inv (st : state) : Prop :=
  entries_nonempty st /\ sessions_match st /\ sessions_unique st.

Lemma inv_congr (st st' : state) :
  (forall r u, dget u (presence_row st' r) = dget u (presence_row st r)) ->
  (forall sid, get_session sid st' = get_session sid st) ->
  inv st -> inv st'.
Proof.
  intros Ht Hs [Hne [Hm Hu]]. unfold sessions_match in Hm.
  assert (Hd : forall r u, devices_of st' r u = devices_of st r u)
    by (intros r u; unfold devices_of; now rewrite Ht).
  split; [|split].
  - intros r u e He. rewrite Ht in He. exact (Hne r u e He).
  - intros r u d. rewrite Hd, Hm. split; intros [sid [ss [Hg H]]]; exists sid, ss.
    + rewrite Hs. auto.
    + rewrite Hs in Hg. auto.
  - intros sid1 sid2 ss1 ss2 H1 H2. rewrite Hs in H1, H2. now apply Hu.
Qed.

Lemma inv_init : inv init.
Proof.
  split; [|split].
  - intros r u e He. discriminate.
  - intros r u d. split; [intros []|]. intros [sid [ss [H _]]]. discriminate.
  - intros sid1 sid2 ss1 ss2 H1. discriminate.
Qed.

Lemma inv_join_accepted (st : state) (sid room user device name : string) :
  inv st ->
  get_session sid st = None ->
  (forall sid' ss, get_session sid' st = Some ss -> same_triple ss room user device = false) ->
  inv (fst (join_table room user device name
              (save_session sid (mkSession room user device name) (enter_room sid room st)))).
Proof.
  intros [Hne [Hm Hu]] Hnos Hfresh. unfold sessions_match in Hm.
  set (st3 := fst (join_table room user device name (save_session sid (mkSession room user device name) (enter_room sid room st)))).
  assert (Hdev : forall r u, devices_of st3 r u =
            if String.eqb r room && String.eqb u user then set_add device (devices_of st room user)
            else devices_of st r u)
    by (intros r u; unfold st3; rewrite join_table_devices; reflexivity).
  assert (Hget : forall r u, dget u (presence_row st3 r) =
            if String.eqb r room && String.eqb u user
            then Some (mkEntry (match dget user (presence_row st room) with Some e => e_name e | None => name end)
                               (set_add device (devices_of st room user)))
            else dget u (presence_row st r))
    by (intros r u; unfold st3; rewrite join_table_get; reflexivity).
  assert (Hgs : forall sid', get_session sid' st3 =
            if String.eqb sid' sid then Some (mkSession room user device name) else get_session sid' st)
    by (intros sid'; unfold st3; exact (get_session_save sid sid' (mkSession room user device name) (enter_room sid room st))).
  split; [|split].
  - intros r u e He. rewrite Hget in He.
    destruct (String.eqb r room && String.eqb u user).
    + injection He as <-. apply set_add_nonempty.
    + exact (Hne r u e He).
  - intros r u d. rewrite Hdev.
    destruct (String.eqb r room && String.eqb u user) eqn:E.
    + apply andb_true_iff in E as [Er Eu]. str_cases.
      rewrite In_set_add, Hm. split.
      * intros [->|[sid' [ss [Hg [Hr [Hu' Hd]]]]]].
        -- exists sid, (mkSession room user device name). rewrite Hgs, String.eqb_refl. repeat split.
        -- exists sid', ss. rewrite Hgs.
           destruct (String.eqb sid' sid) eqn:Es; str_cases; [congruence|auto].
      * intros [sid' [ss [Hg [Hr [Hu' Hd]]]]]. rewrite Hgs in Hg.
        destruct (String.eqb sid' sid).
        -- injection Hg as <-. left. now subst.
        -- right. exists sid', ss. auto.
    + rewrite Hm. split; intros [sid' [ss [Hg [Hr [Hu' Hd]]]]].
      * exists sid', ss. rewrite Hgs.
        destruct (String.eqb sid' sid) eqn:Es; str_cases; [congruence|auto].
      * rewrite Hgs in Hg. destruct (String.eqb sid' sid).
        -- injection Hg as <-. subst. cbn in E. rewrite !String.eqb_refl in E. discriminate.
        -- exists sid', ss. auto.
  - intros sid1 sid2 ss1 ss2 H1 H2 Hr Hu' Hd. rewrite Hgs in H1, H2.
    destruct (String.eqb sid1 sid) eqn:E1, (String.eqb sid2 sid) eqn:E2; str_cases.
    + reflexivity.
    + injection H1 as <-. pose proof (Hfresh sid2 ss2 H2) as Hf.
      unfold same_triple in Hf. rewrite <- Hr, <- Hu', <- Hd in Hf. cbn in Hf.
      rewrite !String.eqb_refl in Hf. discriminate.
    + injection H2 as <-. pose proof (Hfresh sid1 ss1 H1) as Hf.
      unfold same_triple in Hf. rewrite Hr, Hu', Hd in Hf. cbn in Hf.
      rewrite !String.eqb_refl in Hf. discriminate.
    + now apply (Hu sid1 sid2 ss1 ss2).
Qed.

Lemma inv_disconnect (st : state) (sid : string) :
  inv st -> inv (transport_disconnect sid (fst (presence_remove st sid "disconnect"))).
Proof.
  intros Hinv. rewrite presence_remove_state.
  destruct (get_session sid st) as [ss|] eqn:Hg.
  - destruct Hinv as [Hne [Hm Hu]]. unfold sessions_match in Hm.
    assert (Hdev : forall r u,
      devices_of (transport_disconnect sid
        (mkState (fst (remove_table (s_room ss) (s_userId ss) (s_deviceId ss) (room_users st)))
                 (rooms st) (sessions st))) r u =
      if String.eqb r (s_room ss) && String.eqb u (s_userId ss)
      then remove string_dec (s_deviceId ss) (devices_of st (s_room ss) (s_userId ss))
      else devices_of st r u)
      by (intros r u; exact (remove_table_devices (s_room ss) (s_userId ss) (s_deviceId ss) st [] [] r u)).
    assert (Hgs : forall sid',
      get_session sid' (transport_disconnect sid
        (mkState (fst (remove_table (s_room ss) (s_userId ss) (s_deviceId ss) (room_users st)))
                 (rooms st) (sessions st))) =
      if String.eqb sid' sid then None else get_session sid' st)
      by (intros sid'; rewrite get_session_transport; reflexivity).
    pose proof (remove_table_nonempty st (s_room ss) (s_userId ss) (s_deviceId ss) [] [] Hne) as Hne'.
    split; [|split].
    + intros r u e He. exact (Hne' r u e He).
    + intros r u d. rewrite Hdev.
      destruct (String.eqb r (s_room ss) && String.eqb u (s_userId ss)) eqn:E.
      * apply andb_true_iff in E as [Er Eu]. apply String.eqb_eq in Er, Eu. subst r u.
        rewrite In_remove_iff, Hm. split.
        -- intros [[sid' [ss' [Hg' [Hr [Hu' Hd]]]]] Hnd]. exists sid', ss'. rewrite Hgs.
           destruct (String.eqb sid' sid) eqn:Es; [|auto].
           apply String.eqb_eq in Es. subst sid'. rewrite Hg in Hg'. injection Hg' as <-. congruence.
        -- intros [sid' [ss' [Hg' [Hr [Hu' Hd]]]]]. rewrite Hgs in Hg'.
           destruct (String.eqb sid' sid) eqn:Es; [discriminate|]. apply String.eqb_neq in Es.
           split.
           ++ exists sid', ss'. auto.
           ++ intros ->. apply Es. apply (Hu sid' sid ss' ss Hg' Hg); congruence.
      * rewrite Hm. split.
        -- intros [sid' [ss' [Hg' [Hr [Hu' Hd]]]]]. exists sid', ss'. rewrite Hgs.
           destruct (String.eqb sid' sid) eqn:Es; [|auto].
           apply String.eqb_eq in Es. subst sid'. rewrite Hg in Hg'. injection Hg' as <-.
           subst r u. rewrite !String.eqb_refl in E. discriminate.
        -- intros [sid' [ss' [Hg' H']]]. rewrite Hgs in Hg'.
           destruct (String.eqb sid' sid); [discriminate|]. exists sid', ss'. auto.
    + intros sid1 sid2 ss1 ss2 H1 H2. rewrite Hgs in H1, H2.
      destruct (String.eqb sid1 sid); [discriminate|].
      destruct (String.eqb sid2 sid); [discriminate|].
      now apply (Hu sid1 sid2 ss1 ss2).
  - apply (inv_congr st); [reflexivity| |exact Hinv].
    intros sid'. rewrite get_session_transport.
    destruct (String.eqb sid' sid) eqn:E; [|reflexivity].
    apply String.eqb_eq in E. subst sid'. now rewrite Hg.
Qed.

Lemma inv_step (st : state) (ev : event) :
  inv st -> event_ok st ev = true -> inv (fst (step st ev)).
Proof.
  intros Hinv Hok. destruct ev as [sid j|sid|sid|sid data]; cbn [step event_ok] in *.
  - unfold on_join. cbv zeta.
    destruct (String.eqb (join_user j) "" || String.eqb (join_device j) "") eqn:Emode.
    + apply (inv_congr st); [reflexivity|reflexivity|exact Hinv].
    + destruct (capacity_rejects st (join_room j) (join_user j)); [exact Hinv|].
      unfold full_join in Hok. apply orb_false_iff in Emode as [E1 E2].
      rewrite E1, E2 in Hok. cbn [negb andb orb] in Hok.
      apply andb_true_iff in Hok as [Hk Hf].
      assert (Hnos : get_session sid st = None).
      { unfold has_key in Hk. unfold get_session. destruct (dget sid (sessions st)); [discriminate|reflexivity]. }
      assert (Hfresh : forall sid' ss, get_session sid' st = Some ss ->
                 same_triple ss (join_room j) (join_user j) (join_device j) = false).
      { intros sid' ss Hg. rewrite forallb_forall in Hf.
        specialize (Hf (sid', ss) (dget_In _ _ _ Hg)). cbn [snd] in Hf.
        now apply negb_true_iff in Hf. }
      destruct (join_table (join_room j) (join_user j) (join_device j) (join_name j)
                  (save_session sid (mkSession (join_room j) (join_user j) (join_device j) (join_name j))
                     (enter_room sid (join_room j) st))) as [st3 another] eqn:Ejt.
      cbn [fst].
      pose proof (inv_join_accepted st sid (join_room j) (join_user j) (join_device j) (join_name j)
                    Hinv Hnos Hfresh) as H3.
      rewrite Ejt in H3. exact H3.
  - discriminate.
  - unfold disconnect. pose proof (inv_disconnect st sid Hinv) as H.
    destruct (presence_remove st sid "disconnect") as [st1 out]. exact H.
  - exact Hinv.
Qed.

Lemma inv_run (st : state) (evs : list event) :
  inv st -> trace_ok st evs = true -> inv (run st evs).
Proof.
  revert st. induction evs as [|ev evs IH]; intros st Hinv Hok; [exact Hinv|].
  cbn [trace_ok] in Hok. apply andb_true_iff in Hok as [H1 H2].
  cbn [run]. apply IH; [now apply inv_step | exact H2].
Qed.

Lemma inv_consistent (st : state) : inv st -> presence_consistent st.
Proof.
  intros [Hne [Hm Hu]]. unfold sessions_match in Hm. split; [|exact Hne].
  intros room user. split.
  - intros [e He]. pose proof (Hne room user e He) as Hnz.
    destruct (e_devices e) as [|d ds] eqn:Ed; [contradiction|].
    destruct (proj1 (Hm room user d)) as [sid [ss [Hg [Hr [Hu' _]]]]].
    + unfold devices_of. rewrite He, Ed. now left.
    + exists sid, ss. auto.
  - intros [sid [ss [Hg [Hr Hu']]]].
    assert (Hin : In (s_deviceId ss) (devices_of st room user))
      by (apply Hm; exists sid, ss; auto).
    unfold devices_of in Hin.
    destruct (dget user (presence_row st room)) as [e|]; [now exists e | contradiction].
Qed.

(** C3 (amended): over every sequence of join, leave, disconnect and
    signal events from the initial state, every entry has a non-empty
    device set. Over every such sequence without [leave] in which each
    full-mode join comes from a connection without a session and uses a
    (room, userId, deviceId) that no live session holds, an entry exists
    for (room, userId) exactly when a live session references that pair,
    and its device set is exactly the deviceIds of those sessions. *)
Theorem presence_consistency_guarded (evs : list event) :
  entries_nonempty (run init evs) /\
  (trace_ok init evs = true ->
     presence_consistent (run init evs) /\ sessions_match (run init evs)).
Proof.
  split.
  - apply entries_nonempty_run. exact (proj1 inv_init).
  - intros Hok. pose proof (inv_run init evs inv_init Hok) as H.
    split; [now apply inv_consistent | exact (proj1 (proj2 H))].
Qed.

Lemma presence_consistency_guarded_witness :
  let evs := [EJoin "s1" (full "R" "A" "D1" "Ann"); EJoin "s2" (full "R" "A" "D2" "Ann");
              EJoin "s3" (full "R" "B" "E1" "Bob"); EJoin "s4" (full "R" "C" "F1" "Cat");
              ESignal "s1" (VObj [("room", VStr "R")]); EDisconnect "s1"] in
  presence_consistent (run init evs) /\ sessions_match (run init evs).
Proof.
  intros evs. exact (proj2 (presence_consistency_guarded evs) eq_refl).
Defined.

(** ** Further properties of the handlers *)

Lemma skip_set_add (sid : string) l : skip sid (set_add sid l) = skip sid l.
Proof.
  unfold set_add. destruct (existsb (String.eqb sid) l); [reflexivity|].
  unfold skip. rewrite filter_app. cbn. rewrite String.eqb_refl. cbn. apply app_nil_r.
Qed.

(** A back-compat join (no userId or no deviceId) only adds the connection
    to the room's transport membership and tells the other members
    [joined]; the presence table and the sessions are untouched. *)
Theorem on_join_backcompat (st : state) (sid : string) (j : join_data) :
  join_user j = "" \/ join_device j = "" ->
  let '(st', out) := on_join st sid j in
  room_users st' = room_users st /\ sessions st' = sessions st /\
  members st' (join_room j) = set_add sid (members st (join_room j)) /\
  (forall r, r <> join_room j -> members st' r = members st r) /\
  out = [mkEmission "system" (VObj [("message", VStr "joined")]) (skip sid (members st (join_room j)))].
Proof.
  intros Hm. unfold on_join. cbv zeta.
  replace (String.eqb (join_user j) "" || String.eqb (join_device j) "") with true
    by (destruct Hm as [-> | ->]; [reflexivity | symmetry; apply orb_true_r]).
  unfold enter_room, emit_room, members, dget_or. cbn.
  rewrite dget_dset_eq. repeat split.
  - intros r Hr. now rewrite dget_dset_neq.
  - f_equal. f_equal. apply skip_set_add.
Qed.

Lemma on_join_backcompat_witness :
  let st := run init [EJoin "s1" (full "R" "A" "D1" "Ann"); EJoin "s2" (full "R" "B" "E1" "Bob");
                      EJoin "s4" (full "Q" "C" "F1" "Cy")] in
  let '(st', out) := on_join st "s3" (mkJoin (Some "R") (Some "Z") None None) in
  room_users st' = room_users st /\ sessions st' = sessions st /\
  members st' "R" = set_add "s3" (members st "R") /\
  (forall r, r <> "R" -> members st' r = members st r) /\
  out = [mkEmission "system" (VObj [("message", VStr "joined")]) (skip "s3" (members st "R"))].
Proof.
  intros st.
  exact (on_join_backcompat st "s3" (mkJoin (Some "R") (Some "Z") None None) (or_intror eq_refl)).
Defined.

Example on_join_backcompat_ex :
  let st := run init [EJoin "s1" (full "R" "A" "D1" "Ann"); EJoin "s2" (full "R" "B" "E1" "Bob");
                      EJoin "s4" (full "Q" "C" "F1" "Cy")] in
  snd (on_join st "s3" (mkJoin (Some "R") (Some "Z") None None)) =
    [mkEmission "system" (VObj [("message", VStr "joined")]) ["s1"; "s2"]] /\
  members (fst (on_join st "s3" (mkJoin (Some "R") (Some "Z") None None))) "R" = ["s1"; "s2"; "s3"].
Proof. split; reflexivity. Qed.

(** On an accepted full-mode join the [user_joined] notice reaches every
    member of the room but the joining connection, and the roster that
    follows reaches all members, the joining connection included. *)
Theorem on_join_recipients (st : state) (sid : string) (j : join_data) :
  join_user j <> "" -> join_device j <> "" ->
  capacity_rejects st (join_room j) (join_user j) = false ->
  let '(st', out) := on_join st sid j in
  map em_event out = ["user_joined"; "roster"] /\
  map em_to out = [skip sid (members st' (join_room j)); members st' (join_room j)] /\
  In sid (members st' (join_room j)).
Proof.
  intros Hu Hd Hcap. rewrite on_join_accepted; auto. cbv zeta.
  destruct (join_table (join_room j) (join_user j) (join_device j) (join_name j)
              (save_session sid (mkSession (join_room j) (join_user j) (join_device j) (join_name j))
                 (enter_room sid (join_room j) st))) as [st3 another] eqn:Ejt.
  assert (Hr : rooms st3 = dset (join_room j) (set_add sid (members st (join_room j))) (rooms st))
    by (unfold join_table in Ejt; injection Ejt as <- _; reflexivity).
  repeat split. unfold members, dget_or. rewrite Hr, dget_dset_eq. apply In_set_add. now left.
Qed.

Lemma on_join_recipients_witness :
  let st := run init [EJoin "s1" (full "R" "A" "D1" "Ann")] in
  let '(st', out) := on_join st "s2" (full "R" "B" "E1" "Bob") in
  map em_event out = ["user_joined"; "roster"] /\
  map em_to out = [skip "s2" (members st' "R"); members st' "R"] /\
  In "s2" (members st' "R").
Proof.
  intros st.
  exact (on_join_recipients st "s2" (full "R" "B" "E1" "Bob")
           ltac:(discriminate) ltac:(discriminate) eq_refl).
Defined.

(** *** Rejoining with the same data *)

Lemma dset_same {A} (k : string) (v : A) d : dget k d = Some v -> dset k v d = d.
Proof.
  induction d as [|[k' v'] d IH]; simpl; [discriminate|].
  destruct (String.eqb k k'); [intros H; injection H as ->; reflexivity|].
  intros H. now rewrite IH.
Qed.

Lemma set_add_In (x : string) l : In x l -> set_add x l = l.
Proof. intros H. unfold set_add. now rewrite (proj2 (existsb_eqb_In x l) H). Qed.

Lemma on_join_present (st : state) (sid : string) (j : join_data) m row e :
  join_user j <> "" -> join_device j <> "" ->
  dget (join_room j) (rooms st) = Some m -> In sid m ->
  get_session sid st = Some (mkSession (join_room j) (join_user j) (join_device j) (join_name j)) ->
  dget (join_room j) (room_users st) = Some row -> dget (join_user j) row = Some e ->
  In (join_device j) (e_devices e) ->
  fst (on_join st sid j) = st /\
  exists recips, hd_error (snd (on_join st sid j)) =
    Some (mkEmission "user_joined"
            (user_joined_payload (join_room j) (join_user j) (join_name j) (join_device j) false) recips).
Proof.
  intros Hu Hd Hm Hsid Hs Hrow He Hdev.
  assert (Hp : presence_row st (join_room j) = row) by exact (dget_or_Some _ _ _ Hrow).
  assert (Hcap : capacity_rejects st (join_room j) (join_user j) = false).
  { unfold capacity_rejects, has_key. rewrite Hp, He. now rewrite andb_false_r. }
  rewrite on_join_accepted; auto. cbv zeta.
  unfold join_table. rewrite presence_row_save_enter, Hp.
  unfold has_key. rewrite He. cbn [fst snd].
  rewrite (set_add_In _ _ Hdev), (proj2 (existsb_eqb_In _ _) Hdev). cbn [andb negb].
  destruct e as [n ds].
  cbn [e_name e_devices room_users rooms sessions save_session enter_room].
  rewrite (dset_same _ _ _ He), (dset_same _ _ _ Hrow).
  unfold members, dget_or. rewrite Hm, (set_add_In _ _ Hsid), (dset_same _ _ _ Hm).
  rewrite (dset_same _ _ _ Hs). destruct st. split; [reflexivity | eexists; reflexivity].
Qed.

(** A connection that repeats a full-mode join it just made, with the same
    room, userId, deviceId and name, leaves the state as it is, and the
    repeated [user_joined] notice has [anotherDevice] false. *)
Theorem on_join_rejoin_idempotent (st : state) (sid : string) (j : join_data) :
  join_user j <> "" -> join_device j <> "" ->
  capacity_rejects st (join_room j) (join_user j) = false ->
  let st1 := fst (on_join st sid j) in
  fst (on_join st1 sid j) = st1 /\
  exists recips, hd_error (snd (on_join st1 sid j)) =
    Some (mkEmission "user_joined"
            (user_joined_payload (join_room j) (join_user j) (join_name j) (join_device j) false) recips).
Proof.
  intros Hu Hd Hcap st1.
  assert (Hst1 : st1 = mkState
      (dset (join_room j)
         (dset (join_user j)
            (mkEntry (match dget (join_user j) (presence_row st (join_room j)) with
                      | Some e => e_name e | None => join_name j end)
                     (set_add (join_device j) (devices_of st (join_room j) (join_user j))))
            (presence_row st (join_room j)))
         (room_users st))
      (dset (join_room j) (set_add sid (members st (join_room j))) (rooms st))
      (dset sid (mkSession (join_room j) (join_user j) (join_device j) (join_name j)) (sessions st))).
  { unfold st1. rewrite on_join_accepted; auto. cbv zeta. unfold join_table, devices_of.
    rewrite presence_row_save_enter. cbn.
    destruct (dget (join_user j) (presence_row st (join_room j))); reflexivity. }
  clearbody st1. subst st1.
  eapply on_join_present; auto; cbn [rooms sessions room_users get_session].
  - apply dget_dset_eq.
  - apply In_set_add. now left.
  - unfold get_session. cbn. apply dget_dset_eq.
  - apply dget_dset_eq.
  - apply dget_dset_eq.
  - cbn. apply In_set_add. now left.
Qed.

Lemma on_join_rejoin_idempotent_witness :
  let st := run init [EJoin "s1" (full "R" "A" "D1" "Ann")] in
  let st1 := fst (on_join st "s2" (full "R" "A" "D2" "Ann")) in
  fst (on_join st1 "s2" (full "R" "A" "D2" "Ann")) = st1 /\
  exists recips, hd_error (snd (on_join st1 "s2" (full "R" "A" "D2" "Ann"))) =
    Some (mkEmission "user_joined" (user_joined_payload "R" "A" "Ann" "D2" false) recips).
Proof.
  intros st.
  exact (on_join_rejoin_idempotent st "s2" (full "R" "A" "D2" "Ann")
           ltac:(discriminate) ltac:(discriminate) eq_refl).
Defined.

(** *** No room ever holds more than two distinct users *)







(** *** Roster entries *)

Definition str_le (a b : string) : Prop := String.leb a b = true.

Lemma leb_false_flip (a b : string) : String.leb a b = false -> String.leb b a = true.
Proof. intros H. destruct (String.leb_total a b) as [H'|H']; congruence. Qed.

Lemma insert_sorted_hd (a x : string) l :
  HdRel str_le a l -> str_le a x -> HdRel str_le a (insert_sorted x l).
Proof.
  intros Hhd Hax. destruct l as [|y l]; cbn; [now constructor|].
  destruct (String.leb x y); constructor; [exact Hax|]. now inversion Hhd.
Qed.

Lemma insert_sorted_Sorted (x : string) l :
  Sorted str_le l -> Sorted str_le (insert_sorted x l).
Proof.
  induction l as [|y l IH]; intros Hs; cbn; [repeat constructor|].
  destruct (String.leb x y) eqn:E.
  - constructor; [exact Hs | now constructor].
  - inversion Hs as [|? ? Hl Hhd]; subst. constructor; [now apply IH|].
    apply insert_sorted_hd; [exact Hhd | now apply leb_false_flip].
Qed.

Lemma insert_sorted_perm (x : string) l : Permutation (x :: l) (insert_sorted x l).
Proof.
  induction l as [|y l IH]; cbn; [reflexivity|].
  destruct (String.leb x y); [reflexivity|].
  transitivity (y :: x :: l); [apply perm_swap | now constructor].
Qed.

Lemma sorted_spec (l : list string) : Sorted str_le (sorted l) /\ Permutation l (sorted l).
Proof.
  induction l as [|x l [IHs IHp]]; cbn; [split; constructor|]. split.
  - now apply insert_sorted_Sorted.
  - transitivity (x :: sorted l); [now constructor | apply insert_sorted_perm].
Qed.

(** Each user of a roster snapshot carries its userId, its name (the userId
    when the entry's name is empty) and its device set as a list sorted in
    string order holding exactly the entry's devices. *)
Theorem roster_user_spec (uid : string) (e : entry) :
  exists ds,
    roster_user (uid, e) =
      VObj [("userId", VStr uid);
            ("name", VStr (if String.eqb (e_name e) "" then uid else e_name e));
            ("devices", VList (map VStr ds))] /\
    Sorted str_le ds /\ Permutation (e_devices e) ds.
Proof. exists (sorted (e_devices e)). split; [reflexivity | apply sorted_spec]. Qed.

Example roster_ex :
  roster_user ("A", mkEntry "" ["d3"; "d1"; "d2"]) =
  VObj [("userId", VStr "A"); ("name", VStr "A"); ("devices", VList [VStr "d1"; VStr "d2"; VStr "d3"])].
Proof. reflexivity. Qed.

(** *** [strip] and the normalised join fields *)

Lemma drop_space_idem (l : list ascii) : drop_space (drop_space l) = drop_space l.
Proof.
  induction l as [|c l IH]; cbn; [reflexivity|].
  destruct (is_space c) eqn:E; [exact IH|]. cbn. now rewrite E.
Qed.

Lemma drop_space_suffix (l : list ascii) : exists p, l = p ++ drop_space l.
Proof.
  induction l as [|c l [p Hp]]; cbn; [now exists []|].
  destruct (is_space c); [exists (c :: p); cbn; now f_equal | now exists []].
Qed.

Lemma drop_space_hd (l t : list ascii) (c : ascii) : drop_space l = c :: t -> is_space c = false.
Proof.
  induction l as [|d l IH]; cbn; [discriminate|].
  destruct (is_space d) eqn:E; [exact IH|]. intros H. injection H as -> _. exact E.
Qed.

Lemma strip_idem (s : string) : strip (strip s) = strip s.
Proof.
  unfold strip. rewrite list_ascii_of_string_of_list_ascii.
  set (a := drop_space (list_ascii_of_string s)).
  set (b := drop_space (rev a)).
  assert (Hb : drop_space (rev b) = rev b).
  { destruct (drop_space_suffix (rev a)) as [p Hp]. fold b in Hp.
    assert (Ha : a = rev b ++ rev p) by (rewrite <- rev_app_distr, <- Hp; symmetry; apply rev_involutive).
    destruct (rev b) as [|c t] eqn:Eb; [reflexivity|].
    assert (Hc : is_space c = false).
    { apply (drop_space_hd (list_ascii_of_string s) (t ++ rev p)). fold a. rewrite Ha. reflexivity. }
    cbn. now rewrite Hc. }
  rewrite Hb, rev_involutive. unfold b. now rewrite drop_space_idem.
Qed.

(** The room, userId, deviceId and name a join works with carry no
    leading or trailing whitespace and the room is never empty. A join
    without a name (or with an empty one) takes the userId as its name; a
    name made only of whitespace becomes the empty string. *)
Theorem join_fields_normalised (j : join_data) :
  strip (join_room j) = join_room j /\ join_room j <> "" /\
  strip (join_user j) = join_user j /\ strip (join_device j) = join_device j /\
  strip (join_name j) = join_name j /\
  (join_user j <> "" -> (jd_name j = None \/ jd_name j = Some "") -> join_name j = join_user j) /\
  (join_user j = "" -> (jd_name j = None \/ jd_name j = Some "") -> join_name j = "Guest") /\
  (forall s, jd_name j = Some s -> s <> "" -> strip s = "" -> join_name j = "").
Proof.
  unfold join_room, join_user, join_device, join_name.
  repeat split; try apply strip_idem.
  - destruct (String.eqb (strip (or_str (jd_room j) "default")) "") eqn:E; [reflexivity|].
    apply strip_idem.
  - destruct (String.eqb (strip (or_str (jd_room j) "default")) "") eqn:E; [discriminate|].
    now apply String.eqb_neq.
  - intros Hu Hn. apply String.eqb_neq in Hu.
    assert (Hg : or_str (Some (strip (or_str (jd_userId j) ""))) "Guest" = strip (or_str (jd_userId j) ""))
      by (unfold or_str at 1; now rewrite Hu).
    unfold join_user.     rewrite Hg. destruct Hn as [-> | ->]; apply strip_idem.
  - intros Hu Hn. unfold join_user. rewrite Hu. destruct Hn as [-> | ->]; reflexivity.
  - intros s Hs Hne Hst. rewrite Hs. unfold or_str at 1.
    rewrite (proj2 (String.eqb_neq _ _) Hne). exact Hst.
Qed.

Example join_fields_ex :
  let j := mkJoin (Some "  R ") (Some " A") (Some "D ") (Some "   ") in
  (join_room j, join_user j, join_device j, join_name j) = ("R", "A", "D", "").
Proof. reflexivity. Qed.

(** *** The [/translate] endpoint *)

Example translate_ex :
  translate_prepare (Some (VObj [("text", VStr " hi "); ("from", VStr "en")])) (Some " fr, ,de ,") =
  Some (Call (mkCall "hi" ["fr"; "de"] (Some "en"))).
Proof. reflexivity. Qed.

Example translate_invalid_to_ex :
  translate_prepare (Some (VObj [("text", VStr "hi")])) (Some " , ,") =
  Some (Reply 400 (VObj [("error", VStr "invalid_to")])).
Proof. reflexivity. Qed.



Lemma drop_space_filter (l : list ascii) : filter is_space l = [] -> drop_space l = l.
Proof. destruct l as [|c l]; cbn; [reflexivity|]. destruct (is_space c); [discriminate | reflexivity]. Qed.

Lemma filter_nil_rev {A} (p : A -> bool) l : filter p l = [] -> filter p (rev l) = [].
Proof.
  induction l as [|x l IH]; cbn; [reflexivity|].
  rewrite filter_app. destruct (p x) eqn:E; [discriminate|]. intros H. rewrite (IH H). cbn.
  now rewrite E.
Qed.

(** [strip] leaves a string without whitespace as it is. *)
Lemma strip_no_space (s : string) : filter is_space (list_ascii_of_string s) = [] -> strip s = s.
Proof.
  intros H. unfold strip. rewrite (drop_space_filter _ H).
  rewrite (drop_space_filter _ (filter_nil_rev _ _ H)), rev_involutive.
  apply string_of_list_ascii_of_string.
Qed.

Lemma list_ascii_append (s1 s2 : string) :
  list_ascii_of_string (s1 ++ s2) = list_ascii_of_string s1 ++ list_ascii_of_string s2.
Proof. induction s1 as [|c s1 IH]; cbn; [reflexivity | now rewrite IH]. Qed.

Definition lang_token (l : string) : Prop :=
  l <> "" /\ filter is_space (list_ascii_of_string l) = [] /\
  filter (Ascii.eqb ",") (list_ascii_of_string l) = [].

Lemma split_no_comma (l : list ascii) : filter (Ascii.eqb ",") l = [] -> split_at_comma l = [l].
Proof.
  induction l as [|c l IH]; cbn [filter split_at_comma]; [reflexivity|].
  rewrite (Ascii.eqb_sym ","). destruct (Ascii.eqb c ","); [discriminate|]. intros H. now rewrite IH.
Qed.

Lemma split_comma_app (x y : list ascii) :
  filter (Ascii.eqb ",") x = [] -> split_at_comma (x ++ ","%char :: y) = x :: split_at_comma y.
Proof.
  induction x as [|c x IH]; intros H; cbn [app split_at_comma]; [reflexivity|].
  cbn [filter] in H. rewrite (Ascii.eqb_sym ",") in H. destruct (Ascii.eqb c ","); [discriminate|].
  now rewrite IH.
Qed.

Lemma concat_tokens (langs : list string) :
  Forall lang_token langs -> langs <> [] ->
  split_at_comma (list_ascii_of_string (String.concat "," langs)) = map list_ascii_of_string langs /\
  filter is_space (list_ascii_of_string (String.concat "," langs)) = [] /\
  String.concat "," langs <> "".
Proof.
  induction langs as [|l langs IH]; intros Hf Hne; [congruence|].
  inversion Hf as [|? ? [Hl [Hsp Hcm]] Hrest]; subst.
  destruct langs as [|l2 langs].
  - cbn [String.concat map]. rewrite (split_no_comma _ Hcm). auto.
  - destruct (IH Hrest ltac:(discriminate)) as [Hs [Hsp' Hne']].
    change (String.concat "," (l :: l2 :: langs)) with ((l ++ "," ++ String.concat "," (l2 :: langs))%string).
    rewrite !list_ascii_append. cbn [list_ascii_of_string app].
    split; [|split].
    + cbn [map]. rewrite split_comma_app by exact Hcm. now rewrite Hs.
    + rewrite filter_app, Hsp. cbn. exact Hsp'.
    + destruct l; [congruence | discriminate].
Qed.

(** Round trip of the [to] argument: a comma-separated list of language
    codes without whitespace or commas reaches the call as that list, in
    order; the source language is passed exactly when [from] is not blank. *)
Theorem translate_to_roundtrip (body : option value) (text f : string) (langs : list string) :
  str_field (request_data body) "text" = Some text -> text <> "" ->
  str_field (request_data body) "from" = Some f ->
  Forall lang_token langs -> langs <> [] ->
  translate_prepare body (Some (String.concat "," langs)) =
    Some (Call (mkCall text langs (if String.eqb f "" then None else Some f))).
Proof.
  intros Ht Htne Hf Hall Hne.
  destruct (concat_tokens langs Hall Hne) as [Hs [Hsp Hcne]].
  assert (Hor : or_str (Some (String.concat "," langs)) "" = String.concat "," langs)
    by (cbn; destruct (String.eqb (String.concat "," langs) "") eqn:E; [apply String.eqb_eq in E; auto | auto]).
  assert (Hto : to_list (String.concat "," langs) = langs).
  { unfold to_list, split_comma. rewrite Hs, !map_map.
    rewrite (map_ext_in _ (fun x => x)), map_id.
    - apply forallb_filter_id. rewrite forallb_forall. intros x Hx.
      rewrite Forall_forall in Hall. destruct (Hall x Hx) as [Hx' _].
      now rewrite (proj2 (String.eqb_neq _ _) Hx').
    - intros x Hx. rewrite string_of_list_ascii_of_string.
      rewrite Forall_forall in Hall. apply strip_no_space. apply (Hall x Hx). }
  unfold translate_prepare. cbv zeta. rewrite Ht, Hf, Hor, (strip_no_space _ Hsp), Hto.
  rewrite (proj2 (String.eqb_neq _ _) Htne), (proj2 (String.eqb_neq _ _) Hcne). cbn [orb].
  destruct langs; [congruence | reflexivity].
Qed.

Lemma translate_to_roundtrip_witness :
  translate_prepare (Some (VObj [("text", VStr "hello")])) (Some (String.concat "," ["fr"; "de"; "zh-Hans"])) =
    Some (Call (mkCall "hello" ["fr"; "de"; "zh-Hans"] (if String.eqb "" "" then None else Some ""))).
Proof.
  apply translate_to_roundtrip; [reflexivity | discriminate | reflexivity | | discriminate].
  repeat constructor; discriminate.
Defined.

Lemma str_field_stripped (data : value) (k s : string) :
  str_field data k = Some s -> strip s = s.
Proof.
  destruct data as [| | | | |kvs]; cbn; try discriminate.
  destruct (dget k kvs) as [v|]; [|intros H; injection H as <-; reflexivity].
  destruct (truthy v); [|intros H; injection H as <-; reflexivity].
  destruct v; try discriminate. intros H; injection H as <-. apply strip_idem.
Qed.

Lemma to_list_clean (p : string) :
  Forall (fun t => t <> "" /\ strip t = t) (to_list p).
Proof.
  unfold to_list. apply Forall_forall. intros t Ht.
  apply filter_In in Ht as [Hm Hne]. apply in_map_iff in Hm as [u [<- _]].
  split; [|apply strip_idem]. intros E. rewrite E in Hne. discriminate.
Qed.

(** Every outgoing call has a non-blank stripped text, a non-empty list of
    non-blank stripped target languages, and a source language only when it
    is non-blank and stripped. *)
Theorem translate_call_wellformed (body : option value) (to_arg : option string) (c : translate_call) :
  translate_prepare body to_arg = Some (Call c) ->
  tc_text c <> "" /\ strip (tc_text c) = tc_text c /\
  tc_to c <> [] /\ Forall (fun t => t <> "" /\ strip t = t) (tc_to c) /\
  (forall f, tc_from c = Some f -> f <> "" /\ strip f = f).
Proof.
  unfold translate_prepare. cbv zeta.
  destruct (str_field (request_data body) "text") as [text|] eqn:Ht; [|discriminate].
  destruct (str_field (request_data body) "from") as [f|] eqn:Hf; [|discriminate].
  destruct (String.eqb text "") eqn:Etext; [discriminate|].
  destruct (String.eqb (strip (or_str to_arg "")) "") eqn:Eto; [discriminate|]. cbn [orb].
  pose proof (to_list_clean (strip (or_str to_arg ""))) as Hclean.
  destruct (to_list (strip (or_str to_arg ""))) as [|t ts] eqn:Htl; [discriminate|].
  intros H. injection H as <-. cbn [tc_text tc_to tc_from].
  split; [now apply String.eqb_neq|]. split; [exact (str_field_stripped _ _ _ Ht)|].
  split; [discriminate|]. split; [exact Hclean|].
  intros g Hg. destruct (String.eqb f "") eqn:Ef; [discriminate|]. injection Hg as <-.
  split; [now apply String.eqb_neq | exact (str_field_stripped _ _ _ Hf)].
Qed.

Lemma translate_call_wellformed_witness :
  let c := mkCall "hi" ["fr"; "de"] (Some "en") in
  translate_prepare (Some (VObj [("text", VStr " hi "); ("from", VStr "en")])) (Some " fr, ,de ,") = Some (Call c) /\
  (tc_text c <> "" /\ strip (tc_text c) = tc_text c /\
   tc_to c <> [] /\ Forall (fun t => t <> "" /\ strip t = t) (tc_to c) /\
   (forall f, tc_from c = Some f -> f <> "" /\ strip f = f)).
Proof.
  intros c. split; [reflexivity|].
  apply (translate_call_wellformed (Some (VObj [("text", VStr " hi "); ("from", VStr "en")])) (Some " fr, ,de ,") c).
  reflexivity.
Defined.

(** The response of a successful call carries the [text] of the first
    translation of the first result as [translated], and the payload itself
    as [raw]. *)
Theorem translate_reply_first_text (kvs tk : list (string * value)) (rest tr_rest : list value) (t : value) :
  dget "translations" kvs = Some (VList (VObj tk :: tr_rest)) ->
  dget "text" tk = Some t ->
  translate_reply (VList (VObj kvs :: rest)) =
    Some (Reply 200 (VObj [("translated", t); ("raw", VList (VObj kvs :: rest))])).
Proof.
  intros Htr Ht. unfold translate_reply, extract_translated.
  assert (Hne : kvs <> []) by (intros ->; discriminate).
  replace (truthy (VObj kvs)) with true by (destruct kvs; [congruence | reflexivity]).
  rewrite Htr. cbn [truthy]. now rewrite Ht.
Qed.

Lemma translate_reply_first_text_witness :
  translate_reply (VList [VObj [("translations", VList [VObj [("text", VStr "bonjour"); ("to", VStr "fr")]])]]) =
    Some (Reply 200 (VObj [("translated", VStr "bonjour");
                           ("raw", VList [VObj [("translations", VList [VObj [("text", VStr "bonjour"); ("to", VStr "fr")]])]])])).
Proof.
  apply (translate_reply_first_text [("translations", VList [VObj [("text", VStr "bonjour"); ("to", VStr "fr")]])]
           [("text", VStr "bonjour"); ("to", VStr "fr")] [] [] (VStr "bonjour")); reflexivity.
Defined.

(** A payload that is not a non-empty list, or whose first result is empty
    or has no (or an empty) [translations] entry, is answered 200 with a
    [null] translation and the payload as [raw]. *)
Theorem translate_reply_null (payload : value) :
  (match payload with VList (_ :: _) => False | _ => True end \/
   exists p0 rest, payload = VList (p0 :: rest) /\
     (p0 = VObj [] \/ truthy p0 = false \/
      exists kvs, p0 = VObj kvs /\
        match dget "translations" kvs with Some v => truthy v = false | None => True end)) ->
  translate_reply payload = Some (Reply 200 (VObj [("translated", VNull); ("raw", payload)])).
Proof.
  unfold translate_reply, extract_translated.
  intros [Hshape | [p0 [rest [-> Hp0]]]].
  - destruct payload as [| | | |[|p0 l]|]; try reflexivity. contradiction.
  - destruct Hp0 as [-> | [Hf | [kvs [-> Hk]]]].
    + reflexivity.
    + now rewrite Hf.
    + destruct (truthy (VObj kvs)); [|reflexivity].
      destruct (dget "translations" kvs) as [v|]; [|reflexivity].
      now rewrite Hk.
Qed.

Lemma translate_reply_null_witness :
  translate_reply (VList [VObj [("error", VStr "x")]]) =
    Some (Reply 200 (VObj [("translated", VNull); ("raw", VList [VObj [("error", VStr "x")]])])).
Proof.
  apply translate_reply_null. right. exists (VObj [("error", VStr "x")]), []. split; [reflexivity|].
  right; right. exists [("error", VStr "x")]. split; reflexivity.
Defined.

(** A trailing slash added to a non-empty [TRANSLATOR_ENDPOINT] does not
    change [API_BASE]. *)
Theorem api_base_trailing_slash (endpoint : string) :
  endpoint <> "" -> api_base (endpoint ++ "/") = api_base endpoint.
Proof.
  intros Hne. unfold api_base.
  rewrite (proj2 (String.eqb_neq _ _) Hne).
  replace (String.eqb (endpoint ++ "/") "") with false by (destruct endpoint; [congruence | reflexivity]).
  f_equal. unfold rstrip_slash.
  rewrite list_ascii_append, rev_app_distr. cbn [list_ascii_of_string rev app drop_slash].
  rewrite Ascii.eqb_refl. reflexivity.
Qed.

Lemma api_base_trailing_slash_witness :
  api_base ("https://x.cognitiveservices.azure.com/" ++ "/") = api_base "https://x.cognitiveservices.azure.com/".
Proof. apply api_base_trailing_slash. discriminate. Defined.

(** A non-empty endpoint that does not end in a slash is used as it is. *)
Theorem api_base_no_slash (endpoint : string) :
  endpoint <> "" ->
  last (list_ascii_of_string endpoint) "a"%char <> "/"%char ->
  api_base endpoint = Some (endpoint ++ "/translator/text/v3.0")%string.
Proof.
  intros Hne Hc. unfold api_base. rewrite (proj2 (String.eqb_neq _ _) Hne).
  unfold rstrip_slash. do 2 f_equal.
  destruct (rev (list_ascii_of_string endpoint)) as [|d l] eqn:E.
  - cbn. apply (f_equal (@rev ascii)) in E. rewrite rev_involutive in E. cbn in E.
    destruct endpoint; [reflexivity | discriminate].
  - apply (f_equal (@rev ascii)) in E. rewrite rev_involutive in E. cbn [rev] in E.
    rewrite E, last_last in Hc. cbn [drop_slash].
    rewrite (proj2 (Ascii.eqb_neq _ _) Hc). cbn [rev]. rewrite <- E.
    apply string_of_list_ascii_of_string.
Qed.

Lemma api_base_no_slash_witness :
  api_base "https://x.cognitiveservices.azure.com" = Some "https://x.cognitiveservices.azure.com/translator/text/v3.0".
Proof. apply api_base_no_slash; [discriminate | cbv; discriminate]. Defined.

Lemma api_base_None (endpoint : string) : api_base endpoint = None <-> endpoint = "".
Proof.
  unfold api_base. destruct (String.eqb endpoint "") eqn:E.
  - apply String.eqb_eq in E. tauto.
  - apply String.eqb_neq in E. split; [discriminate | contradiction].
Qed.

(** The module loads (has an [API_BASE]) unless both [TRANSLATOR_ENDPOINT]
    and [billing] are unset or empty; a non-empty [TRANSLATOR_ENDPOINT]
    takes precedence over [billing]. *)
Theorem api_base_config (env : list (string * string)) :
  (api_base (translator_endpoint env) = None <->
     (forall t, dget "TRANSLATOR_ENDPOINT" env = Some t -> t = "") /\
     (forall b, dget "billing" env = Some b -> b = "")) /\
  (forall t, dget "TRANSLATOR_ENDPOINT" env = Some t -> t <> "" -> translator_endpoint env = t).
Proof.
  rewrite api_base_None. unfold translator_endpoint, or_str. split.
  - assert (HB : match dget "billing" env with Some b => b | None => "" end = "" <->
                 (forall b, dget "billing" env = Some b -> b = "")).
    { destruct (dget "billing" env) as [b|].
      - split; [intros -> ? E; now injection E as <- | intros H; now apply H].
      - split; [discriminate | reflexivity]. }
    destruct (dget "TRANSLATOR_ENDPOINT" env) as [t|].
    + destruct (String.eqb t "") eqn:Et.
      * apply String.eqb_eq in Et. subst t. rewrite HB.
        split; [intros H; split; [intros ? E; now injection E as <- | exact H] | tauto].
      * apply String.eqb_neq in Et. split; [intros H; contradiction|].
        intros [H _]. exfalso. exact (Et (H t eq_refl)).
    + rewrite HB. split; [intros H; split; [discriminate | exact H] | tauto].
  - intros t Et Hne. rewrite Et. now rewrite (proj2 (String.eqb_neq _ _) Hne).
Qed.

(** *** Signals naming several rooms *)

Lemma In_add_members (x : string) (a m : list string) :
  In x (add_members a m) <-> In x a \/ In x m.
Proof.
  unfold add_members. revert a. induction m as [|y m IH]; intros a; cbn [fold_left].
  - cbn. tauto.
  - rewrite IH, In_set_add. cbn. intuition (subst; auto).
Qed.

Lemma fold_room_list (st : state) (x : string) (rs : list string) (a : list string) :
  exists a', fold_left (fun acc r =>
                   match acc, room_key_members st r with
                   | Some a, Some m => Some (add_members a m)
                   | _, _ => None
                   end) (map VStr rs) (Some a) = Some a' /\
    (In x a' <-> In x a \/ exists r, In r rs /\ In x (members st r)).
Proof.
  revert a. induction rs as [|r rs IH]; intros a; cbn [map fold_left].
  - exists a. split; [reflexivity|]. split; [tauto | intros [H | [r [[] _]]]; exact H].
  - cbn [room_key_members]. destruct (IH (add_members a (members st r))) as [a' [Ha' Hx]].
    exists a'. split; [exact Ha'|]. rewrite Hx, In_add_members. split.
    + intros [[H | H] | [r' [Hr' H]]]; [tauto | right; exists r; split; [now left | exact H] |].
      right; exists r'. split; [now right | exact H].
    + intros [H | [r' [[<- | Hr'] H]]]; [tauto | tauto | right; exists r'; tauto].
Qed.

(** A signal whose room field is a non-empty list of room names is relayed,
    unchanged and with the state unchanged, to exactly the connections
    (other than the sender) that are members of at least one of those rooms. *)
Theorem on_signal_room_list (st : state) (sid : string) (kvs : list (string * value)) (rs : list string) :
  dget "room" kvs = Some (VList (map VStr rs)) -> rs <> [] ->
  exists ps,
    step st (ESignal sid (VObj kvs)) = (st, [mkEmission "signal" (VObj kvs) (skip sid ps)]) /\
    (forall x, In x (skip sid ps) <-> x <> sid /\ exists r, In r rs /\ In x (members st r)).
Proof.
  intros Hr Hne. destruct rs as [|r0 rs]; [congruence|].
  unfold step, on_signal, signal_room. rewrite Hr. cbn [truthy map].
  unfold room_participants. cbn [room_key_members].
  destruct (fold_room_list st sid rs (members st r0)) as [ps [Hps _]].
  rewrite Hps. exists ps. split; [reflexivity|].
  intros x. destruct (fold_room_list st x rs (members st r0)) as [ps' [Hps' Hx]].
  rewrite Hps in Hps'. injection Hps' as <-.
  unfold skip. rewrite filter_In, Hx, Bool.negb_true_iff, String.eqb_neq. split.
  - intros [[H | [r [Hr' H]]] Hs]; split; auto; [exists r0; split; [now left | exact H] |].
    exists r. split; [now right | exact H].
  - intros [Hs [r [[<- | Hr'] H]]]; split; auto. right. exists r. auto.
Qed.

Lemma on_signal_room_list_witness :
  let st := run init [EJoin "s1" (full "R" "A" "D1" "Ann"); EJoin "s2" (full "R" "B" "E1" "Bob");
                      EJoin "s3" (full "Q" "C" "F1" "Cy"); EJoin "s4" (full "P" "D" "G1" "Di")] in
  let p := [("room", VList [VStr "R"; VStr "Q"]); ("sdp", VStr "v=0")] in
  exists ps,
    step st (ESignal "s1" (VObj p)) = (st, [mkEmission "signal" (VObj p) (skip "s1" ps)]) /\
    (forall x, In x (skip "s1" ps) <-> x <> "s1" /\ exists r, In r ["R"; "Q"] /\ In x (members st r)).
Proof.
  intros st p. exact (on_signal_room_list st "s1" p ["R"; "Q"] eq_refl ltac:(discriminate)).
Defined.

Example signal_room_list_ex :
  let st := run init [EJoin "s1" (full "R" "A" "D1" "Ann"); EJoin "s2" (full "R" "B" "E1" "Bob");
                      EJoin "s3" (full "Q" "C" "F1" "Cy"); EJoin "s4" (full "P" "D" "G1" "Di")] in
  snd (step st (ESignal "s1" (VObj [("room", VList [VStr "R"; VStr "Q"])]))) =
    [mkEmission "signal" (VObj [("room", VList [VStr "R"; VStr "Q"])]) ["s2"; "s3"]].
Proof. reflexivity. Qed.

(** *** Segments of a join *)

(** One join task resumed until it returns does exactly what [on_join]
    does. *)
Lemma join_segments_sequential (st : state) (sid : string) (j : join_data) :
  sched_run st [mkTask sid j (Some JStart)] [0; 0; 0]%nat =
    (fst (on_join st sid j), snd (on_join st sid j), [mkTask sid j None]).
Proof.
  unfold sched_run. cbn [fold_left]. unfold sched_step at 3. cbn [nth_error].
  unfold join_segment at 1. cbn [t_pc t_sid t_join]. unfold on_join. cbv zeta.
  destruct (String.eqb (join_user j) "" || String.eqb (join_device j) ""); [reflexivity|].
  destruct (capacity_rejects st (join_room j) (join_user j)); [reflexivity|].
  cbn [replace_nth sched_step nth_error app t_pc t_sid t_join].
  unfold join_segment at 1. cbn [t_pc t_sid t_join].
  destruct (join_table (join_room j) (join_user j) (join_device j) (join_name j)
              (save_session sid (mkSession (join_room j) (join_user j) (join_device j) (join_name j))
                 (enter_room sid (join_room j) st))) as [st3 another].
  reflexivity.
Qed.

(** ** C9: the two critical sections of a join *)

(** C9 (code bug): the capacity check and the table update of a join run
    in two separate [presence_lock] sections. Two new users B and C joining
    room R, which holds only user A, can both pass the check before either
    writes, and R ends with three users. Run one after the other, either
    order rejects the second join and leaves R with two users. *)
Theorem concurrent_joins_overfill :
  let st0 := run init [EJoin "s1" (full "R" "A" "D1" "Ann")] in
  let ts := [mkTask "s2" (full "R" "B" "E1" "Bob") (Some JStart);
             mkTask "s3" (full "R" "C" "F1" "Cy") (Some JStart)] in
  let '(st', out, ts') := sched_run st0 ts [0; 1; 0; 1; 0; 1]%nat in
  map t_pc ts' = [None; None] /\
  map fst (presence_row st' "R") = ["A"; "B"; "C"] /\
  map em_event out = ["user_joined"; "user_joined"; "roster"; "roster"] /\
  map fst (presence_row (run st0 [EJoin "s2" (full "R" "B" "E1" "Bob"); EJoin "s3" (full "R" "C" "F1" "Cy")]) "R")
    = ["A"; "B"] /\
  map fst (presence_row (run st0 [EJoin "s3" (full "R" "C" "F1" "Cy"); EJoin "s2" (full "R" "B" "E1" "Bob")]) "R")
    = ["A"; "C"].
Proof. vm_compute. repeat split. Qed.
